(** * Drone detector: threshold, band filter and temporal hysteresis

    Shallow embedding of [script2.py] (detectar_dron_v2): the column
    resolver [buscar_col], the loader [leer_csv], the k-sigma thresholds,
    the band filter, the instantaneous mask and the hysteresis verdict.
    The first script, [script.py] (detectar_dron), is embedded in module
    [V1] and compared with the second in Part III.

    Modelling choices, all visible below:
    - column labels are strings of 8-bit characters; [str.lower] is the
      ASCII lower-casing;
    - a cell is an IEEE-754 binary64 value ([spec_float] at precision 53
      and maximal exponent 1024), so NaN, infinities and rounding are
      those of the machine; integer columns are read as their binary64
      images;
    - the script is a computation over an explicit state: the files given
      to [pd.read_csv], the printed lines and the module namespace. *)

From Stdlib Require Import ZArith List Bool String Ascii Lia.
From Stdlib Require Import Floats.SpecFloat.
Import ListNotations.

Set Implicit Arguments.

(* ================================================================== *)
(** * Part I: definitions                                              *)
(* ================================================================== *)

(** ** Python strings *)

Module Py.

Local Open Scope string_scope.

(** [c.lower()] on one character: A..Z are moved to a..z. *)
Definition lower_ascii (c : ascii) : ascii :=
  let n := nat_of_ascii c in
  if (65 <=? n)%nat && (n <=? 90)%nat then ascii_of_nat (n + 32) else c.

Fixpoint lower (s : string) : string :=
  match s with
  | EmptyString => EmptyString
  | String c s' => String (lower_ascii c) (lower s')
  end.

(** [s.startswith(k)] *)
Fixpoint startswith (k s : string) : bool :=
  match k, s with
  | EmptyString, _ => true
  | String _ _, EmptyString => false
  | String a k', String b s' => Ascii.eqb a b && startswith k' s'
  end.

(** [k in s]: [k] occurs in [s] at some offset. *)
Fixpoint str_in (k s : string) : bool :=
  startswith k s ||
  match s with
  | EmptyString => false
  | String _ s' => str_in k s'
  end.

(** Truth value of a [str | None] object: [None] and [""] are false. *)
Definition truthy (o : option string) : bool :=
  match o with
  | None => false
  | Some EmptyString => false
  | Some (String _ _) => true
  end.

End Py.

(** ** The column resolver *)

(** [buscar_col] only looks at [df.columns]; it is written over the
    list of labels, in the frame's column order. *)
Fixpoint buscar_col_in (columns : list string) (key : string) : option string :=
  match columns with
  | [] => None
  | c :: rest =>
      if Py.str_in (Py.lower key) (Py.lower c) then Some c
      else buscar_col_in rest key
  end.

(** ** binary64 arithmetic *)

Module F64.

Definition float64 := spec_float.

Definition prec : Z := 53.
Definition emax : Z := 1024.

Definition nan : float64 := S754_nan.
Definition zero : float64 := S754_zero false.

(** The binary64 image of an integer ([float(n)]). *)
Definition of_Z (z : Z) : float64 := binary_normalize prec emax z 0 false.
Definition of_nat (n : nat) : float64 := of_Z (Z.of_nat n).
(** [m / 2^e] for literals such as [2483.5]. *)
Definition of_dyadic (m : Z) (e : Z) : float64 :=
  binary_normalize prec emax m (- e) false.

Definition add : float64 -> float64 -> float64 := SFadd prec emax.
Definition sub : float64 -> float64 -> float64 := SFsub prec emax.
Definition mul : float64 -> float64 -> float64 := SFmul prec emax.
Definition div : float64 -> float64 -> float64 := SFdiv prec emax.
Definition sqrt : float64 -> float64 := SFsqrt prec emax.

(** [x > y], [x >= y], [x <= y]: false as soon as one side is NaN. *)
Definition gt (x y : float64) : bool :=
  match SFcompare x y with Some Gt => true | _ => false end.
Definition ge (x y : float64) : bool :=
  match SFcompare x y with Some (Gt | Eq) => true | _ => false end.
Definition le (x y : float64) : bool := SFleb x y.

Definition isnan (x : float64) : bool :=
  match x with S754_nan => true | _ => false end.

End F64.

Abbreviation float64 := F64.float64.

(** ** The part of pandas and numpy the script uses *)

Module Pd.

(** A numeric column. A missing cell is NaN. *)
Definition Series := list float64.

(** A frame: labelled columns in their declared order, all of the same
    length [nrows]. *)
Record DataFrame := mkDataFrame {
  frame : list (string * Series);
  nrows : nat;
  frame_wf :
    forallb (fun c => Nat.eqb (List.length (snd c)) nrows) frame = true
}.

(** [df.columns] *)
Definition columns (df : DataFrame) : list string := map fst (frame df).

(** [len(df)] *)
Definition len (df : DataFrame) : nat := nrows df.

Fixpoint lookup (cols : list (string * Series)) (c : string) : option Series :=
  match cols with
  | [] => None
  | (name, s) :: rest => if String.eqb name c then Some s else lookup rest c
  end.

(** The column labelled [c], if there is one. *)
Definition column (df : DataFrame) (c : string) : option Series :=
  lookup (frame df) c.

(** Reductions run with [skipna=True]: one pass that accumulates the
    sum and the count of the cells that are not NaN.  The sum is taken
    from left to right; numpy may associate a long sum differently, which
    can change the last bit of the result but none of the statements of
    Part II, and the sums of the sample columns are exact in any order. *)
Definition nansum_count (s : Series) : float64 * nat :=
  fold_left
    (fun (acc : float64 * nat) x =>
       if F64.isnan x then acc else (F64.add (fst acc) x, S (snd acc)))
    s (F64.zero, 0).

(** [Series.mean()] *)
Definition mean (s : Series) : float64 :=
  let (asum, count) := nansum_count s in
  if (0 <? count)%nat then F64.div asum (F64.of_nat count) else F64.nan.

(** Sum of squared deviations from [amean] over the cells that are
    not NaN. *)
Definition nansum_sqdev (amean : float64) (s : Series) : float64 :=
  fold_left
    (fun acc x =>
       if F64.isnan x then acc
       else let d := F64.sub x amean in F64.add acc (F64.mul d d))
    s F64.zero.

(** [Series.std()], with its default [ddof=1]. *)
Definition std (s : Series) : float64 :=
  let ddof := 1 in
  let (asum, count) := nansum_count s in
  if (ddof <? count)%nat then
    let amean := F64.div asum (F64.of_nat count) in
    F64.sqrt (F64.div (nansum_sqdev amean s) (F64.of_nat (count - ddof)))
  else F64.nan.

(** Element-wise comparisons of a column with a scalar. *)
Definition gt_scalar (s : Series) (t : float64) : list bool :=
  map (fun x => F64.gt x t) s.
Definition ge_scalar (s : Series) (t : float64) : list bool :=
  map (fun x => F64.ge x t) s.
Definition le_scalar (s : Series) (t : float64) : list bool :=
  map (fun x => F64.le x t) s.

(** Element-wise [&] of two masks over the same rows. *)
Fixpoint mask_and (a b : list bool) : list bool :=
  match a, b with
  | x :: a', y :: b' => (x && y) :: mask_and a' b'
  | _, _ => []
  end.

(** [np.ones(n, dtype=bool)] *)
Definition ones (n : nat) : list bool := repeat true n.

(** [mask.astype(int)] *)
Definition astype_int (m : list bool) : list Z :=
  map (fun b : bool => if b then 1%Z else 0%Z) m.

Definition zsum (xs : list Z) : Z := fold_right Z.add 0%Z xs.

(** The trailing window of at most [window] samples ending at row [i]. *)
Definition trailing (window : nat) (xs : list Z) (i : nat) : list Z :=
  skipn (i + 1 - window) (firstn (i + 1) xs).

(** [pd.Series(xs).rolling(window, min_periods).sum()].  A row whose
    window holds fewer than [min_periods] samples is NaN, written
    [None]; the other rows hold the window's sum, an integer here since
    the samples are 0 and 1. *)
Definition rolling_sum (window min_periods : nat) (xs : list Z)
  : list (option Z) :=
  map (fun i =>
         let w := trailing window xs i in
         if (List.length w <? min_periods)%nat then None else Some (zsum w))
      (seq 0 (List.length xs)).

(** [r >= n], row by row; a NaN row compares false. *)
Definition ge_count (r : list (option Z)) (n : Z) : list bool :=
  map (fun o => match o with Some s => (n <=? s)%Z | None => false end) r.

(** [mask.any()] *)
Definition any (m : list bool) : bool := existsb (fun b => b) m.

End Pd.

Abbreviation Series := Pd.Series.
Abbreviation DataFrame := Pd.DataFrame.

(** [buscar_col(df, key)] *)
Definition buscar_col (df : DataFrame) (key : string) : option string :=
  buscar_col_in (Pd.columns df) key.

(** ** The detection steps *)

(** [mu + args.ksigma * sigma] *)
Definition umbral (mu sigma ksigma : float64) : float64 :=
  F64.add mu (F64.mul ksigma sigma).

(** The filter applied when a frequency column and both bounds are there. *)
Definition band_filter (freq : Series) (freq_min freq_max : float64) : list bool :=
  Pd.mask_and (Pd.ge_scalar freq freq_min) (Pd.le_scalar freq freq_max).

(** [hits], the rows that close a full window of [n_consec] true rows. *)
Definition hits (n_consec : Z) (instant_mask : list bool) : list bool :=
  Pd.ge_count
    (Pd.rolling_sum (Z.to_nat n_consec) (Z.to_nat n_consec)
                    (Pd.astype_int instant_mask))
    n_consec.

(** The verdict drawn from the instantaneous mask. *)
Definition dron_detectado (n_consec : Z) (instant_mask : list bool) : bool :=
  if (n_consec >? 1)%Z then Pd.any (hits n_consec instant_mask)
  else Pd.any instant_mask.

(** ** The script as a computation *)

(** Command-line arguments, as [argparse] delivers them. *)
Record Args := mkArgs {
  baseline : string;
  datafile : string;
  ksigma : float64;
  freq_min : option float64;
  freq_max : option float64;
  n_consec : Z;
  stats : bool
}.

(** A file on disk, as far as the script can tell: the table
    [pd.read_csv] parses from it, and whether its bytes decode under the
    default encoding. *)
Record File := mkFile {
  decodes_utf8 : bool;
  table : DataFrame
}.

(** The file system: the paths that exist, with their content. *)
Definition FileSystem := string -> option File.

Inductive encoding := Utf8 | Latin1.

(** What the run does to the outside world, oldest first. *)
Inductive event :=
| Stat (path : string)                      (* [path.exists()] *)
| ReadCsv (path : string) (enc : encoding). (* [pd.read_csv(path, ...)] *)

(** Printed lines, by their content. *)
Inductive line :=
| ErrArchivoInexistente (path : string)
| ErrNoPFD
| HdrBaseline
| StatPfd (col : string) (mu sigma thr : float64)
| StatPow (col : string) (mu sigma thr : float64)
| StatBand (fmin : float64) (fmax : option float64)
| HdrDescribe
| Describe (cols : list string)
| HdrResultado
| DronDetectado
| SinDron.

(** Objects bound in the module namespace. *)
Inductive value :=
| VNone
| VStr (s : string)
| VFloat (x : float64)
| VBool (b : bool)
| VFrame (df : DataFrame)
| VMask (m : list bool).

Definition of_label (o : option string) : value :=
  match o with Some s => VStr s | None => VNone end.

Inductive exn := KeyError | UnicodeDecodeError | FileNotFoundError.

Record State := mkState {
  trace : list event;
  stdout : list line;
  globals : list (string * value)   (* latest binding first *)
}.

Definition initial : State := mkState [] [] [].

Inductive Result (A : Type) :=
| Ok (a : A)
| Exit (code : Z)          (* [sys.exit(code)] *)
| Raise (e : exn).         (* an exception nobody catches *)

Arguments Ok {A} a.
Arguments Exit {A} code.
Arguments Raise {A} e.

Definition M (A : Type) : Type := State -> Result A * State.

Definition ret {A} (a : A) : M A := fun st => (Ok a, st).

Definition bind {A B} (m : M A) (k : A -> M B) : M B :=
  fun st =>
    match m st with
    | (Ok a, st') => k a st'
    | (Exit c, st') => (Exit c, st')
    | (Raise e, st') => (Raise e, st')
    end.

Declare Scope script_scope.
Delimit Scope script_scope with script.
Notation "x <- m ;; k" := (bind m (fun x => k))
  (at level 61, m at next level, right associativity) : script_scope.
Notation "m ;; k" := (bind m (fun _ => k))
  (at level 61, right associativity) : script_scope.

Definition sys_exit {A} (code : Z) : M A := fun st => (Exit code, st).
Definition raise {A} (e : exn) : M A := fun st => (Raise e, st).

Definition emit (e : event) : M unit :=
  fun st => (Ok tt, mkState (trace st ++ [e]) (stdout st) (globals st)).

Definition print (l : line) : M unit :=
  fun st => (Ok tt, mkState (trace st) (stdout st ++ [l]) (globals st)).

(** [name = v] at module level. *)
Definition assign (name : string) (v : value) : M unit :=
  fun st => (Ok tt, mkState (trace st) (stdout st) ((name, v) :: globals st)).

(** The object bound to [name], if the name is bound. *)
Fixpoint var (g : list (string * value)) (name : string) : option value :=
  match g with
  | [] => None
  | (n, v) :: rest => if String.eqb n name then Some v else var rest name
  end.

(** [try: m except e: handler] *)
Definition try_except {A} (m : M A) (handler : exn -> option (M A)) : M A :=
  fun st =>
    match m st with
    | (Raise e, st') =>
        match handler e with
        | Some h => h st'
        | None => (Raise e, st')
        end
    | r => r
    end.

Section Script.

Variable fs : FileSystem.

Local Open Scope script_scope.
Local Open Scope string_scope.

(** [pd.read_csv(path)] on a path that exists. *)
Definition read_csv (path : string) (enc : encoding) : M DataFrame :=
  emit (ReadCsv path enc) ;;
  match fs path with
  | None => raise FileNotFoundError
  | Some f =>
      match enc with
      | Utf8 => if decodes_utf8 f then ret (table f) else raise UnicodeDecodeError
      | Latin1 => ret (table f)
      end
  end.

Definition leer_csv (path : string) : M DataFrame :=
  emit (Stat path) ;;
  match fs path with
  | None => print (ErrArchivoInexistente path) ;; sys_exit 1
  | Some _ =>
      try_except (read_csv path Utf8)
        (fun e => match e with
                  | UnicodeDecodeError => Some (read_csv path Latin1)
                  | _ => None
                  end)
  end.

(** [df[label]]: a label that is [None] or names no column is a
    [KeyError]. *)
Definition getitem (df : DataFrame) (label : option string) : M Series :=
  match label with
  | None => raise KeyError
  | Some c =>
      match Pd.column df c with
      | Some s => ret s
      | None => raise KeyError
      end
  end.

Definition script (args : Args) : M unit :=
  (* CARGA DE ARCHIVOS *)
  df_base <- leer_csv (baseline args) ;;
  assign "df_base" (VFrame df_base) ;;
  df_data <- leer_csv (datafile args) ;;
  assign "df_data" (VFrame df_data) ;;
  let pfd_base := buscar_col df_base "Power Flux Density" in
  assign "pfd_base" (of_label pfd_base) ;;
  let pfd_data := buscar_col df_data "Power Flux Density" in
  assign "pfd_data" (of_label pfd_data) ;;
  let pow_base := buscar_col df_base "Total Spectrum Power" in
  assign "pow_base" (of_label pow_base) ;;
  let pow_data := buscar_col df_data "Total Spectrum Power" in
  assign "pow_data" (of_label pow_data) ;;
  let freq_data := buscar_col df_data "Frequency" in
  assign "freq_data" (of_label freq_data) ;;
  (if negb (Py.truthy pfd_base) || negb (Py.truthy pfd_data)
   then print ErrNoPFD ;; sys_exit 1
   else ret tt) ;;
  (* CALCULO DE UMBRALES *)
  col_mu <- getitem df_base pfd_base ;;
  col_sigma <- getitem df_base pfd_base ;;
  let mu_pfd := Pd.mean col_mu in
  let sigma_pfd := Pd.std col_sigma in
  assign "mu_pfd" (VFloat mu_pfd) ;;
  assign "sigma_pfd" (VFloat sigma_pfd) ;;
  let thr_pfd := umbral mu_pfd sigma_pfd (ksigma args) in
  assign "thr_pfd" (VFloat thr_pfd) ;;
  assign "thr_power" VNone ;;
  power <-
    (if Py.truthy pow_base && Py.truthy pow_data then
       col_mu <- getitem df_base pow_base ;;
       col_sigma <- getitem df_base pow_base ;;
       let mu_pow := Pd.mean col_mu in
       let sigma_pow := Pd.std col_sigma in
       assign "mu_pow" (VFloat mu_pow) ;;
       assign "sigma_pow" (VFloat sigma_pow) ;;
       let thr_power := umbral mu_pow sigma_pow (ksigma args) in
       assign "thr_power" (VFloat thr_power) ;;
       ret (Some (mu_pow, sigma_pow, thr_power))
     else ret None) ;;
  (* FILTRO DE BANDA *)
  assign "band_mask" (VMask (Pd.ones (Pd.len df_data))) ;;
  band_mask <-
    match Py.truthy freq_data, freq_min args, freq_max args with
    | true, Some fmin, Some fmax =>
        lo <- getitem df_data freq_data ;;
        hi <- getitem df_data freq_data ;;
        let band_mask :=
          Pd.mask_and (Pd.ge_scalar lo fmin) (Pd.le_scalar hi fmax) in
        assign "band_mask" (VMask band_mask) ;;
        ret band_mask
    | _, _, _ => ret (Pd.ones (Pd.len df_data))
    end ;;
  (* DETECCION INSTANTANEA *)
  pfd <- getitem df_data pfd_data ;;
  let instant_mask := Pd.mask_and (Pd.gt_scalar pfd thr_pfd) band_mask in
  assign "instant_mask" (VMask instant_mask) ;;
  instant_mask <-
    match power with
    | Some (_, _, thr_power) =>
        pow <- getitem df_data pow_data ;;
        let instant_mask :=
          Pd.mask_and instant_mask (Pd.gt_scalar pow thr_power) in
        assign "instant_mask" (VMask instant_mask) ;;
        ret instant_mask
    | None => ret instant_mask
    end ;;
  (* HISTERESIS *)
  (if (n_consec args >? 1)%Z
   then assign "hits" (VMask (hits (n_consec args) instant_mask))
   else ret tt) ;;
  let detectado := dron_detectado (n_consec args) instant_mask in
  assign "dron_detectado" (VBool detectado) ;;
  (* SALIDAS *)
  (if stats args then
     print HdrBaseline ;;
     print (StatPfd (match pfd_base with Some c => c | None => "None" end)
                    mu_pfd sigma_pfd thr_pfd) ;;
     match power with
     | Some (mu_pow, sigma_pow, thr_power) =>
         print (StatPow (match pow_base with Some c => c | None => "None" end)
                        mu_pow sigma_pow thr_power)
     | None => ret tt
     end ;;
     match freq_min args with
     | Some fmin => print (StatBand fmin (freq_max args))
     | None => ret tt
     end ;;
     print HdrDescribe ;;
     let cols_show :=
       flat_map (fun c => match c with
                          | Some l => if Py.truthy c then [l] else []
                          | None => []
                          end)
                [pfd_data; pow_data; freq_data] in
     print (Describe cols_show)
   else ret tt) ;;
  print HdrResultado ;;
  print (if detectado then DronDetectado else SinDron).

End Script.

(** The outcome and the final state of one run. *)
Definition run (fs : FileSystem) (args : Args) : Result unit * State :=
  script fs args initial.

(** ** Reading a run *)

Definition outcome (fs : FileSystem) (args : Args) : Result unit :=
  fst (run fs args).

(** The object a name is bound to when the run ends. *)
Definition global (fs : FileSystem) (args : Args) (name : string) : option value :=
  var (globals (snd (run fs args))) name.

(** The accesses [leer_csv] makes to a file that exists. *)
Definition loads (path : string) (f : File) : list event :=
  Stat path :: ReadCsv path Utf8 ::
  (if decodes_utf8 f then [] else [ReadCsv path Latin1]).

(** The names the threshold and detection steps bind. *)
Definition detection_names : list string :=
  ["mu_pfd"; "sigma_pfd"; "thr_pfd"; "thr_power"; "mu_pow"; "sigma_pow";
   "band_mask"; "instant_mask"; "hits"; "dron_detectado"]%string.

Section Completed.

Local Open Scope string_scope.

Variables (args : Args) (df_base df_data : DataFrame).
Variable g : string -> option value.

(** What a run that went through has bound for the band filter. *)
Inductive BandFacts (band_mask : list bool) : Prop :=
| band_active (c : string) (fmin fmax : float64) (freq : Series) :
    buscar_col df_data "Frequency" = Some c ->
    freq_min args = Some fmin -> freq_max args = Some fmax ->
    Pd.column df_data c = Some freq ->
    band_mask = band_filter freq fmin fmax ->
    BandFacts band_mask
| band_inactive :
    buscar_col df_data "Frequency" = None \/
    freq_min args = None \/ freq_max args = None ->
    band_mask = Pd.ones (Pd.len df_data) ->
    BandFacts band_mask.

(** What it has bound for the power criterion; [pfd_mask] is the mask
    of the PFD criterion and the band filter. *)
Inductive PowerFacts (pfd_mask instant_mask : list bool) : Prop :=
| power_enabled (cb cd : string) (pow_b pow_d : Series) :
    buscar_col df_base "Total Spectrum Power" = Some cb ->
    buscar_col df_data "Total Spectrum Power" = Some cd ->
    Pd.column df_base cb = Some pow_b ->
    Pd.column df_data cd = Some pow_d ->
    g "thr_power" =
      Some (VFloat (umbral (Pd.mean pow_b) (Pd.std pow_b) (ksigma args))) ->
    instant_mask =
      Pd.mask_and pfd_mask
        (Pd.gt_scalar pow_d
           (umbral (Pd.mean pow_b) (Pd.std pow_b) (ksigma args))) ->
    PowerFacts pfd_mask instant_mask
| power_disabled :
    buscar_col df_base "Total Spectrum Power" = None \/
    buscar_col df_data "Total Spectrum Power" = None ->
    g "thr_power" = Some VNone ->
    instant_mask = pfd_mask ->
    PowerFacts pfd_mask instant_mask.

(** The bindings a run that went through leaves behind. *)
Inductive Completed (cb cd : string) (st : State) : Prop :=
| completed (pfd_b pfd_d : Series) (band_mask instant_mask : list bool) :
    Pd.column df_base cb = Some pfd_b ->
    Pd.column df_data cd = Some pfd_d ->
    g "thr_pfd" =
      Some (VFloat (umbral (Pd.mean pfd_b) (Pd.std pfd_b) (ksigma args))) ->
    g "band_mask" = Some (VMask band_mask) ->
    BandFacts band_mask ->
    PowerFacts
      (Pd.mask_and
         (Pd.gt_scalar pfd_d
            (umbral (Pd.mean pfd_b) (Pd.std pfd_b) (ksigma args)))
         band_mask)
      instant_mask ->
    g "instant_mask" = Some (VMask instant_mask) ->
    g "dron_detectado" =
      Some (VBool (dron_detectado (n_consec args) instant_mask)) ->
    last (stdout st) HdrBaseline =
      (if dron_detectado (n_consec args) instant_mask
       then DronDetectado else SinDron) ->
    Completed cb cd st.

End Completed.

(** Both files are there and each table has a PFD column: the run is
    not stopped by a configuration error. *)
Definition Loaded (fs : FileSystem) (args : Args)
           (fb fd : File) (cb cd : string) : Prop :=
  fs (baseline args) = Some fb /\
  fs (datafile args) = Some fd /\
  buscar_col (table fb) "Power Flux Density" = Some cb /\
  buscar_col (table fd) "Power Flux Density" = Some cd.

(** ** Sample inputs *)

Module Sample.

Local Open Scope string_scope.
Local Open Scope Z_scope.

Definition col (xs : list Z) : Series := map F64.of_Z xs.

(** A baseline whose PFD column has mean 10 and standard deviation 2. *)
Definition base : DataFrame :=
  @Pd.mkDataFrame
    [("Timestamp", col [1; 2; 3]);
     ("Power Flux Density (dBm/m2)", col [8; 12; 10]);
     ("Total Spectrum Power (dBm)", col [1; 2; 3])]
    3 eq_refl.

(** A baseline of a single row. *)
Definition base_one_row : DataFrame :=
  @Pd.mkDataFrame
    [("Power Flux Density (dBm/m2)", col [8]);
     ("Total Spectrum Power (dBm)", col [1])]
    1 eq_refl.

Definition data : DataFrame :=
  @Pd.mkDataFrame
    [("Frequency (MHz)", col [2410; 2410; 2500; 2410]);
     ("power flux density", col [17; 18; 20; 16]);
     ("TOTAL SPECTRUM POWER", col [6; 7; 8; 9])]
    4 eq_refl.

(** The same candidate without its power column. *)
Definition data_pfd_only : DataFrame :=
  @Pd.mkDataFrame
    [("Frequency (MHz)", col [2410; 2410; 2500; 2410]);
     ("power flux density", col [17; 18; 20; 16])]
    4 eq_refl.

(** Another candidate, with other columns, rows and values. *)
Definition data_other : DataFrame :=
  @Pd.mkDataFrame
    [("Total spectrum power", col [40; 50]);
     ("PFD - Power Flux Density", col [100; 200])]
    2 eq_refl.

(** A candidate without rows. *)
Definition data_empty : DataFrame :=
  @Pd.mkDataFrame
    [("Frequency (MHz)", []); ("power flux density", [])] 0 eq_refl.

(** A table without a PFD column. *)
Definition no_pfd : DataFrame :=
  @Pd.mkDataFrame [("Frequency (MHz)", col [2410])] 1 eq_refl.

Definition fs : FileSystem :=
  fun path =>
    if String.eqb path "baseline.csv" then Some (mkFile true base)
    else if String.eqb path "one_row.csv" then Some (mkFile true base_one_row)
    else if String.eqb path "data.csv" then Some (mkFile false data)
    else if String.eqb path "pfd_only.csv" then Some (mkFile true data_pfd_only)
    else if String.eqb path "other.csv" then Some (mkFile true data_other)
  else if String.eqb path "empty.csv" then Some (mkFile true data_empty)
    else if String.eqb path "no_pfd.csv" then Some (mkFile true no_pfd)
    else None.

(** [-k 3 --freq-min 2400 --freq-max 2483.5 --n-consec 2] *)
Definition args (baseline datafile : string) : Args :=
  mkArgs baseline datafile (F64.of_Z 3)
         (Some (F64.of_Z 2400)) (Some (F64.of_dyadic 4967 1)) 2 false.


End Sample.

(** ** Vocabulary of the specification *)

(** These definitions follow the specification's words, not the code;
    the theorems of Part II compare the code with them. *)

(** [c] contains [key] as a case-insensitive substring: some stretch of
    [c] equals [key] once the case of the letters is ignored. *)
Definition contains_ci (c key : string) : Prop :=
  exists p m q, c = (p ++ m ++ q)%string /\ Py.lower m = Py.lower key.

(** [columns] holds [c] at position [i], and no earlier label matches. *)
Definition first_match (columns : list string) (key c : string) : Prop :=
  exists i,
    nth_error columns i = Some c /\ contains_ci c key /\
    forall j c', j < i -> nth_error columns j = Some c' -> ~ contains_ci c' key.

(** The mask holds [n] consecutive true rows, starting at some row [i]. *)
Definition has_run (n : nat) (mask : list bool) : Prop :=
  exists i,
    i + n <= List.length mask /\
    forall j, j < n -> nth (i + j) mask false = true.

(** The window of exactly [n] rows that ends at row [i]. *)
Definition window_at (n : nat) (mask : list bool) (i : nat) : list Z :=
  Pd.astype_int (firstn n (skipn (i + 1 - n) mask)).

(** The two thresholds do not depend on the candidate: two runs on the
    same baseline file with the same [k] bind the same objects to
    [thr_pfd] and to [thr_power], whatever their candidate files. *)
Definition thresholds_ignore_candidate : Prop :=
  forall (fs : FileSystem) (a1 a2 : Args) (fb fd1 fd2 : File),
    baseline a1 = baseline a2 -> ksigma a1 = ksigma a2 ->
    fs (baseline a1) = Some fb ->
    fs (datafile a1) = Some fd1 -> fs (datafile a2) = Some fd2 ->
    global fs a1 "thr_pfd" = global fs a2 "thr_pfd" /\
    global fs a1 "thr_power" = global fs a2 "thr_power".

(** The numeric values of a column: its cells that are not NaN. *)
Definition numeric_values (s : Series) : list float64 :=
  filter (fun x => negb (F64.isnan x)) s.

Definition fsum (xs : list float64) : float64 := fold_left F64.add xs F64.zero.

(** Arithmetic mean: the sum over the number of values. *)
Definition arith_mean (xs : list float64) : float64 :=
  F64.div (fsum xs) (F64.of_nat (List.length xs)).

(** Sample standard deviation: the square root of the sum of squared
    deviations from the mean over [N - 1]; undefined (NaN) when fewer
    than two values are there. *)
Definition sample_std (xs : list float64) : float64 :=
  let N := List.length xs in
  if (N <? 2)%nat then F64.nan
  else
    let mu := arith_mean xs in
    let sq x := let d := F64.sub x mu in F64.mul d d in
    F64.sqrt (F64.div (fsum (map sq xs)) (F64.of_nat (N - 1))).

(** ** Variations of the arguments *)

(** The same command line with [--stats] set or not. *)
Definition with_stats (b : bool) (args : Args) : Args :=
  mkArgs (baseline args) (datafile args) (ksigma args)
         (freq_min args) (freq_max args) (n_consec args) b.

(** The same command line without [--freq-min] and [--freq-max]. *)
Definition without_band (args : Args) : Args :=
  mkArgs (baseline args) (datafile args) (ksigma args)
         None None (n_consec args) (stats args).

(** The command line [baseline datafile] alone: every option at the
    default [argparse] gives it ([-k 3.0], no band, [--n-consec 1]). *)
Definition defaults (baseline datafile : string) (stats : bool) : Args :=
  mkArgs baseline datafile (F64.of_Z 3) None None 1 stats.

(** ** The first script *)

(** [script.py] (detectar_dron): the same loader and resolver, the
    fixed multiplier 3, no band filter and no hysteresis. *)
Module V1.

Record Args := mkArgs {
  baseline : string;
  datafile : string;
  stats : bool
}.

(** Printed lines, by their content. *)
Inductive line :=
| ErrNoSeEncontro (ruta : string)
| ErrNoColumnaPFD
| HdrEstadisticasBaseline
| StatPfd (col : string) (mean std umbral : float64)
| StatPow (col : string) (mean std umbral : float64)
| HdrEstadisticasData
| Describe (cols : list string)
| HdrResultado
| DronDetectado
| SinDron.

Record State := mkState {
  trace : list event;
  stdout : list line;
  globals : list (string * value)   (* latest binding first *)
}.

Definition initial : State := mkState [] [] [].

Definition M (A : Type) : Type := State -> Result A * State.

Definition ret {A} (a : A) : M A := fun st => (Ok a, st).

Definition bind {A B} (m : M A) (k : A -> M B) : M B :=
  fun st =>
    match m st with
    | (Ok a, st') => k a st'
    | (Exit c, st') => (Exit c, st')
    | (Raise e, st') => (Raise e, st')
    end.

Declare Scope v1_scope.
Delimit Scope v1_scope with v1.
Notation "x <- m ;; k" := (bind m (fun x => k))
  (at level 61, m at next level, right associativity) : v1_scope.
Notation "m ;; k" := (bind m (fun _ => k))
  (at level 61, right associativity) : v1_scope.

Definition sys_exit {A} (code : Z) : M A := fun st => (Exit code, st).
Definition raise {A} (e : exn) : M A := fun st => (Raise e, st).

Definition emit (e : event) : M unit :=
  fun st => (Ok tt, mkState (trace st ++ [e]) (stdout st) (globals st)).

Definition print (l : line) : M unit :=
  fun st => (Ok tt, mkState (trace st) (stdout st ++ [l]) (globals st)).

Definition assign (name : string) (v : value) : M unit :=
  fun st => (Ok tt, mkState (trace st) (stdout st) ((name, v) :: globals st)).

Definition try_except {A} (m : M A) (handler : exn -> option (M A)) : M A :=
  fun st =>
    match m st with
    | (Raise e, st') =>
        match handler e with
        | Some h => h st'
        | None => (Raise e, st')
        end
    | r => r
    end.

(** [buscar_columna(df, clave)]: the resolver of the second script under
    its first name. *)
Definition buscar_columna (df : DataFrame) (clave : string) : option string :=
  buscar_col_in (Pd.columns df) clave.

Section Script1.

Variable fs : FileSystem.

Local Open Scope v1_scope.
Local Open Scope string_scope.

Definition read_csv (ruta : string) (enc : encoding) : M DataFrame :=
  emit (ReadCsv ruta enc) ;;
  match fs ruta with
  | None => raise FileNotFoundError
  | Some f =>
      match enc with
      | Utf8 => if decodes_utf8 f then ret (table f) else raise UnicodeDecodeError
      | Latin1 => ret (table f)
      end
  end.

(** The fallback encoding is [ISO-8859-1], the codec [latin1] names. *)
Definition leer_csv (ruta : string) : M DataFrame :=
  emit (Stat ruta) ;;
  match fs ruta with
  | None => print (ErrNoSeEncontro ruta) ;; sys_exit 1
  | Some _ =>
      try_except (read_csv ruta Utf8)
        (fun e => match e with
                  | UnicodeDecodeError => Some (read_csv ruta Latin1)
                  | _ => None
                  end)
  end.

Definition getitem (df : DataFrame) (label : option string) : M Series :=
  match label with
  | None => raise KeyError
  | Some c =>
      match Pd.column df c with
      | Some s => ret s
      | None => raise KeyError
      end
  end.

Definition script (args : Args) : M unit :=
  (* CARGA DE DATOS *)
  df_base <- leer_csv (baseline args) ;;
  assign "df_base" (VFrame df_base) ;;
  df_data <- leer_csv (datafile args) ;;
  assign "df_data" (VFrame df_data) ;;
  let pfd_col_base := buscar_columna df_base "Power Flux Density" in
  assign "pfd_col_base" (of_label pfd_col_base) ;;
  let pfd_col_data := buscar_columna df_data "Power Flux Density" in
  assign "pfd_col_data" (of_label pfd_col_data) ;;
  let pow_col_base := buscar_columna df_base "Total Spectrum Power" in
  assign "pow_col_base" (of_label pow_col_base) ;;
  let pow_col_data := buscar_columna df_data "Total Spectrum Power" in
  assign "pow_col_data" (of_label pow_col_data) ;;
  (if negb (Py.truthy pfd_col_base) || negb (Py.truthy pfd_col_data)
   then print ErrNoColumnaPFD ;; sys_exit 1
   else ret tt) ;;
  (* CALCULO DE UMBRALES *)
  col <- getitem df_base pfd_col_base ;;
  let mean_pfd_base := Pd.mean col in
  assign "mean_pfd_base" (VFloat mean_pfd_base) ;;
  col <- getitem df_base pfd_col_base ;;
  let std_pfd_base := Pd.std col in
  assign "std_pfd_base" (VFloat std_pfd_base) ;;
  let umbral_pfd := F64.add mean_pfd_base (F64.mul (F64.of_Z 3) std_pfd_base) in
  assign "umbral_pfd" (VFloat umbral_pfd) ;;
  assign "umbral_power" VNone ;;
  power <-
    (if Py.truthy pow_col_base && Py.truthy pow_col_data then
       col <- getitem df_base pow_col_base ;;
       let mean_pow_base := Pd.mean col in
       assign "mean_pow_base" (VFloat mean_pow_base) ;;
       col <- getitem df_base pow_col_base ;;
       let std_pow_base := Pd.std col in
       assign "std_pow_base" (VFloat std_pow_base) ;;
       let umbral_power :=
         F64.add mean_pow_base (F64.mul (F64.of_Z 3) std_pow_base) in
       assign "umbral_power" (VFloat umbral_power) ;;
       ret (Some (mean_pow_base, std_pow_base, umbral_power))
     else ret None) ;;
  (* DETECCION *)
  mask <-
    match power with
    | Some (_, _, umbral_power) =>
        pfd <- getitem df_data pfd_col_data ;;
        pow <- getitem df_data pow_col_data ;;
        ret (Pd.mask_and (Pd.gt_scalar pfd umbral_pfd)
                         (Pd.gt_scalar pow umbral_power))
    | None =>
        pfd <- getitem df_data pfd_col_data ;;
        ret (Pd.gt_scalar pfd umbral_pfd)
    end ;;
  assign "mask" (VMask mask) ;;
  let dron_detectado := Pd.any mask in
  assign "dron_detectado" (VBool dron_detectado) ;;
  (* RESULTADOS / STATS *)
  (if stats args then
     print HdrEstadisticasBaseline ;;
     print (StatPfd (match pfd_col_base with Some c => c | None => "None" end)
                    mean_pfd_base std_pfd_base umbral_pfd) ;;
     match power with
     | Some (mean_pow_base, std_pow_base, umbral_power) =>
         print (StatPow (match pow_col_base with Some c => c | None => "None" end)
                        mean_pow_base std_pow_base umbral_power)
     | None => ret tt
     end ;;
     print HdrEstadisticasData ;;
     print (Describe
              (flat_map (fun c => match c with
                                  | Some l => if Py.truthy c then [l] else []
                                  | None => []
                                  end)
                        [pfd_col_data; pow_col_data]))
   else ret tt) ;;
  print HdrResultado ;;
  print (if dron_detectado then DronDetectado else SinDron).

End Script1.

Definition run (fs : FileSystem) (args : Args) : Result unit * State :=
  script fs args initial.

Definition outcome (fs : FileSystem) (args : Args) : Result unit :=
  fst (run fs args).

Definition global (fs : FileSystem) (args : Args) (name : string) : option value :=
  var (globals (snd (run fs args))) name.

End V1.

(* ================================================================== *)
(** * Part II: properties                                              *)
(* ================================================================== *)

(** ** Strings *)

Section StringFacts.

Local Open Scope string_scope.

Lemma lower_app (s t : string) : Py.lower (s ++ t) = Py.lower s ++ Py.lower t.
Proof. induction s as [|c s IH]; simpl; [reflexivity | now rewrite IH]. Qed.

Lemma startswith_iff (k s : string) :
  Py.startswith k s = true <-> exists q, s = k ++ q.
Proof.
  revert s; induction k as [|a k IH]; intros s; simpl.
  - split; [intros _; now exists s | reflexivity].
  - destruct s as [|b s].
    + split; [discriminate | intros [q Hq]; discriminate].
    + rewrite andb_true_iff, Ascii.eqb_eq, IH. split.
      * intros [-> [q ->]]. now exists q.
      * intros [q Hq]. injection Hq as -> ->. split; [reflexivity | now exists q].
Qed.

(** [k in s] is exactly: [s] splits as a prefix, then [k], then a suffix. *)
Lemma str_in_iff (k s : string) :
  Py.str_in k s = true <-> exists p q, s = p ++ k ++ q.
Proof.
  induction s as [|b s IH]; simpl; rewrite orb_true_iff, startswith_iff.
  - split.
    + intros [[q Hq] | H]; [| discriminate]. now exists "", q.
    + intros [p [q H]]. left. destruct p; simpl in H.
      * now exists q.
      * discriminate.
  - rewrite IH. split.
    + intros [[q Hq] | [p [q Hq]]].
      * now exists "", q.
      * exists (String b p), q. simpl. now rewrite Hq.
    + intros [p [q H]]. destruct p as [|c p]; simpl in H.
      * left. now exists q.
      * right. injection H as _ H. now exists p, q.
Qed.

(** Splitting a lower-cased string splits the string itself. *)
Lemma lower_split (s u v : string) :
  Py.lower s = u ++ v ->
  exists s1 s2, s = s1 ++ s2 /\ Py.lower s1 = u /\ Py.lower s2 = v.
Proof.
  revert s; induction u as [|a u IH]; intros s H; simpl in H.
  - exists "", s. now repeat split.
  - destruct s as [|c s]; simpl in H; [discriminate |].
    injection H as Ha H. destruct (IH _ H) as [s1 [s2 [-> [<- <-]]]].
    exists (String c s1), s2. simpl. now rewrite Ha.
Qed.

End StringFacts.

(** ** The column resolver *)

Section Resolver.

Local Open Scope string_scope.

(** The code's test [key.lower() in c.lower()] decides [contains_ci]. *)
Lemma str_in_lower_iff (key c : string) :
  Py.str_in (Py.lower key) (Py.lower c) = true <-> contains_ci c key.
Proof.
  rewrite str_in_iff. split.
  - intros [p' [q' H]].
    destruct (lower_split _ _ _ H) as [p [r [-> [Hp Hr]]]].
    destruct (lower_split _ _ _ Hr) as [m [q [-> [Hm Hq]]]].
    now exists p, m, q.
  - intros [p [m [q [-> Hm]]]].
    exists (Py.lower p), (Py.lower q).
    now rewrite !lower_app, Hm.
Qed.

Lemma buscar_col_in_some (cols : list string) (key c : string) :
  buscar_col_in cols key = Some c -> first_match cols key c.
Proof.
  induction cols as [|c0 cols IH]; simpl; [discriminate |].
  destruct (Py.str_in (Py.lower key) (Py.lower c0)) eqn:E.
  - intros [= ->]. exists 0. repeat split.
    + now apply str_in_lower_iff.
    + intros j c' Hj. lia.
  - intros H. destruct (IH H) as [i [Hi [Hc Hfirst]]].
    exists (S i). repeat split; trivial.
    intros [|j] c' Hj Hnth; simpl in Hnth.
    + injection Hnth as <-. rewrite <- str_in_lower_iff. congruence.
    + apply (Hfirst j); [lia | exact Hnth].
Qed.


Lemma buscar_col_in_In (cols : list string) (key c : string) :
  buscar_col_in cols key = Some c -> In c cols.
Proof.
  intros H. destruct (buscar_col_in_some _ _ H) as [i [Hi _]].
  eapply nth_error_In; eassumption.
Qed.

(** A label found for a key that is not empty is not empty, hence true
    in a condition. *)
Lemma buscar_col_truthy (df : DataFrame) (key c : string) :
  key <> "" -> buscar_col df key = Some c -> Py.truthy (Some c) = true.
Proof.
  intros Hkey H. apply buscar_col_in_some in H.
  destruct H as [_ [_ [[p [m [q [-> Hm]]]] _]]].
  destruct m as [|a m].
  - destruct key; [congruence | discriminate].
  - now destruct p.
Qed.

(** A label found by the resolver names a column of the frame. *)
Lemma lookup_In (cols : list (string * Series)) (c : string) :
  In c (map fst cols) -> exists s, Pd.lookup cols c = Some s.
Proof.
  induction cols as [|[n s] cols IH]; simpl; [intros [] |].
  destruct (String.eqb_spec n c) as [-> | Hne].
  - intros _. now exists s.
  - intros [H | H]; [contradiction | now apply IH].
Qed.

Lemma buscar_col_column (df : DataFrame) (key c : string) :
  buscar_col df key = Some c -> exists s, Pd.column df c = Some s.
Proof. intros H. apply lookup_In. eapply buscar_col_in_In, H. Qed.

End Resolver.

(** Two labels match the key: the first one, in column order, wins. *)
Example buscar_col_two_matches :
  buscar_col_in ["Time"; "Center FREQUENCY"; "Frequency (MHz)"]%string
                "Frequency"
  = Some "Center FREQUENCY"%string /\
  buscar_col_in ["Time"; "Level"]%string "Frequency" = None.
Proof. split; reflexivity. Qed.


(** ** Hysteresis *)

Section Hysteresis.

Local Open Scope Z_scope.

Lemma zsum_astype_bounds (m : list bool) :
  0 <= Pd.zsum (Pd.astype_int m) <= Z.of_nat (List.length m).
Proof.
  induction m as [|b m IH]; simpl; [lia |].
  destruct b; lia.
Qed.

(** A window sums to its length exactly when all its rows are true. *)
Lemma zsum_astype_full (m : list bool) :
  Pd.zsum (Pd.astype_int m) = Z.of_nat (List.length m) <->
  forall j, (j < List.length m)%nat -> nth j m false = true.
Proof.
  induction m as [|b m IH]; simpl.
  - split; [intros _ j Hj; lia | reflexivity].
  - pose proof (zsum_astype_bounds m) as Hb. destruct b.
    + split.
      * intros H [|j] Hj; [reflexivity |].
        apply IH; [| lia]. fold (Pd.zsum (Pd.astype_int m)) in H. lia.
      * intros H. fold (Pd.zsum (Pd.astype_int m)).
        assert (Pd.zsum (Pd.astype_int m) = Z.of_nat (List.length m)) as ->.
        { apply IH. intros j Hj. apply (H (S j)). lia. }
        lia.
    + split.
      * intros H. fold (Pd.zsum (Pd.astype_int m)) in H. lia.
      * intros H. specialize (H 0%nat). simpl in H.
        assert (false = true) by (apply H; lia). discriminate.
Qed.

Lemma any_iff (m : list bool) :
  Pd.any m = true <-> exists i, (i < List.length m)%nat /\ nth i m false = true.
Proof.
  unfold Pd.any. rewrite existsb_exists. split.
  - intros [b [Hin ->]]. destruct (In_nth _ _ false Hin) as [i [Hi Hn]].
    now exists i.
  - intros [i [Hi Hn]]. exists true. split; [| reflexivity].
    rewrite <- Hn. now apply nth_In.
Qed.

(** On a row that closes a full window, the code's trailing window is
    the window of exactly [n] rows of the specification. *)
Lemma trailing_full (n : nat) (mask : list bool) (i : nat) :
  (n <= i + 1)%nat ->
  Pd.trailing n (Pd.astype_int mask) i = window_at n mask i.
Proof.
  intros Hn. unfold Pd.trailing, window_at, Pd.astype_int.
  rewrite firstn_skipn_comm, firstn_map, skipn_map.
  now replace (i + 1 - n + n)%nat with (i + 1)%nat by lia.
Qed.

Lemma length_trailing (n : nat) (xs : list Z) (i : nat) :
  (i < List.length xs)%nat ->
  List.length (Pd.trailing n xs i) = Nat.min (i + 1) n.
Proof.
  intros Hi. unfold Pd.trailing. rewrite length_skipn, length_firstn. lia.
Qed.

Lemma length_window_at (n : nat) (mask : list bool) (i : nat) :
  (n <= i + 1 <= List.length mask)%nat ->
  List.length (firstn n (skipn (i + 1 - n) mask)) = n.
Proof. intros H. rewrite length_firstn, length_skipn. lia. Qed.

(** The rows of [hits]: true exactly on the rows that close a full
    window whose sum reaches [n_consec]. *)
Lemma any_hits_iff (n : Z) (mask : list bool) :
  Pd.any (hits n mask) = true <->
  exists i, (Z.to_nat n <= i + 1 <= List.length mask)%nat /\
            n <= Pd.zsum (window_at (Z.to_nat n) mask i).
Proof.
  unfold Pd.any, hits, Pd.ge_count, Pd.rolling_sum.
  rewrite existsb_exists. split.
  - intros [b [Hin ->]].
    apply in_map_iff in Hin. destruct Hin as [o [Ho Hin]].
    apply in_map_iff in Hin. destruct Hin as [i [Hi Hin]].
    apply in_seq in Hin. unfold Pd.astype_int in Hin at 1.
    rewrite length_map in Hin.
    assert (Hlen : (i < List.length (Pd.astype_int mask))%nat)
      by (unfold Pd.astype_int; rewrite length_map; lia).
    rewrite (length_trailing _ _ Hlen) in Hi.
    destruct (Nat.ltb_spec (Nat.min (i + 1) (Z.to_nat n)) (Z.to_nat n)) as [Hlt | Hge].
    + subst o. discriminate.
    + subst o. exists i. split; [lia |].
      rewrite <- trailing_full by lia. now apply Z.leb_le.
  - intros [i [Hi Hsum]]. exists true. split; [| reflexivity].
    apply in_map_iff. exists (Some (Pd.zsum (window_at (Z.to_nat n) mask i))).
    split; [now apply Z.leb_le |].
    apply in_map_iff. exists i. split.
    + assert (Hlen : (i < List.length (Pd.astype_int mask))%nat)
        by (unfold Pd.astype_int; rewrite length_map; lia).
      rewrite (length_trailing _ _ Hlen).
      destruct (Nat.ltb_spec (Nat.min (i + 1) (Z.to_nat n)) (Z.to_nat n)); [lia |].
      now rewrite trailing_full by lia.
    + apply in_seq. unfold Pd.astype_int. rewrite length_map. lia.
Qed.

(** A window's sum reaches [n_consec] only by being equal to it. *)
Lemma window_sum_reaches (n : Z) (mask : list bool) (i : nat) :
  0 <= n -> (Z.to_nat n <= i + 1 <= List.length mask)%nat ->
  (n <= Pd.zsum (window_at (Z.to_nat n) mask i) <->
   Pd.zsum (window_at (Z.to_nat n) mask i) = n).
Proof.
  intros Hn Hi. unfold window_at.
  pose proof (zsum_astype_bounds (firstn (Z.to_nat n) (skipn (i + 1 - Z.to_nat n) mask))) as Hb.
  rewrite (length_window_at _ _ Hi) in Hb. lia.
Qed.

Lemma window_full_iff (n : nat) (mask : list bool) (i : nat) :
  (n <= i + 1 <= List.length mask)%nat ->
  (Pd.zsum (window_at n mask i) = Z.of_nat n <->
   forall j, (j < n)%nat -> nth (i + 1 - n + j) mask false = true).
Proof.
  intros Hi. unfold window_at.
  pose proof (zsum_astype_full (firstn n (skipn (i + 1 - n) mask))) as H.
  rewrite (length_window_at _ _ Hi) in H. rewrite H.
  split; intros Hw j Hj; specialize (Hw j Hj);
    rewrite nth_firstn, nth_skipn in *;
    destruct (Nat.ltb_spec j n); try lia; exact Hw.
Qed.

(** A run of [n] rows is a full window of [n] true rows, named by its
    last row. *)
Lemma has_run_windows (n : nat) (mask : list bool) :
  (1 <= n)%nat ->
  (has_run n mask <->
   exists i, (n <= i + 1 <= List.length mask)%nat /\
             forall j, (j < n)%nat -> nth (i + 1 - n + j) mask false = true).
Proof.
  intros Hn. unfold has_run. split.
  - intros [s [Hs Hrun]]. exists (s + n - 1)%nat. split; [lia |].
    intros j Hj. replace (s + n - 1 + 1 - n + j)%nat with (s + j)%nat by lia.
    now apply Hrun.
  - intros [i [Hi Hrun]]. exists (i + 1 - n)%nat. split; [lia | exact Hrun].
Qed.

End Hysteresis.

(** The two masks of the specification's example, at [n_consec = 3]. *)
Example dron_detectado_run_of_3 :
  dron_detectado 3 [true; true; false; true; true; true] = true /\
  dron_detectado 3 [true; true; false; true; true; false] = false.
Proof. split; reflexivity. Qed.

(** C1. For [n_consec >= 1] the verdict is true exactly when the mask
    holds [n_consec] consecutive true rows.  At [n_consec <= 1] it is
    the logical OR of the mask; above 1 it is true exactly when some row
    closes a full window of [n_consec] rows whose sum equals
    [n_consec]. *)
Theorem dron_detectado_iff_run (mask : list bool) (n : Z) :
  (1 <= n)%Z ->
  (dron_detectado n mask = true <-> has_run (Z.to_nat n) mask) /\
  ((n <= 1)%Z -> dron_detectado n mask = Pd.any mask) /\
  ((1 < n)%Z ->
   (dron_detectado n mask = true <->
    exists i, (Z.to_nat n <= i + 1 <= List.length mask)%nat /\
              Pd.zsum (window_at (Z.to_nat n) mask i) = n)).
Proof.
  intros Hn.
  assert (Hwin : (1 < n)%Z ->
    (dron_detectado n mask = true <->
     exists i, (Z.to_nat n <= i + 1 <= List.length mask)%nat /\
               Pd.zsum (window_at (Z.to_nat n) mask i) = n)).
  { intros H1. unfold dron_detectado.
    destruct (Z.gtb_spec n 1) as [_ | ?]; [| lia].
    rewrite any_hits_iff.
    split; intros [i [Hi Hs]]; exists i; (split; [exact Hi |]);
      apply (@window_sum_reaches n mask i); trivial; lia. }
  assert (Hor : (n <= 1)%Z -> dron_detectado n mask = Pd.any mask).
  { intros H1. unfold dron_detectado.
    destruct (Z.gtb_spec n 1) as [? | _]; [lia | reflexivity]. }
  split; [| split; [exact Hor | exact Hwin]].
  split.
  - (* the verdict gives a run *)
    intros Hd. apply has_run_windows; [lia |].
    destruct (Z_le_gt_dec n 1) as [H1 | H1].
    + rewrite (Hor H1) in Hd. apply any_iff in Hd. destruct Hd as [i [Hi Hi']].
      replace (Z.to_nat n) with 1%nat by lia. exists i. split; [lia |].
      intros j Hj. replace (i + 1 - 1 + j)%nat with i by lia. exact Hi'.
    + apply Hwin in Hd; [| lia]. destruct Hd as [i [Hi Hs]]. exists i.
      split; [exact Hi |]. apply window_full_iff; trivial. lia.
  - (* a run gives the verdict *)
    intros Hr. apply has_run_windows in Hr; [| lia].
    destruct Hr as [i [Hi Hrun]].
    destruct (Z_le_gt_dec n 1) as [H1 | H1].
    + rewrite (Hor H1). apply any_iff. exists i. split; [lia |].
      replace (Z.to_nat n) with 1%nat in Hrun by lia.
      specialize (Hrun 0%nat). replace (i + 1 - 1 + 0)%nat with i in Hrun by lia.
      apply Hrun. lia.
    + apply Hwin; [lia |]. exists i. split; [exact Hi |].
      apply window_full_iff in Hrun; trivial. lia.
Qed.

Lemma dron_detectado_iff_run_witness :
  (1 <= 3)%Z /\
  (dron_detectado 3 [true; true; false; true; true; true] = true <->
   has_run (Z.to_nat 3) [true; true; false; true; true; true]).
Proof.
  split; [lia |].
  apply (@dron_detectado_iff_run [true; true; false; true; true; true] 3).
  lia.
Defined.


(** ** binary64 comparisons and NaN *)

Section Floats.

Lemma gt_iff (x y : float64) : F64.gt x y = true <-> SFcompare x y = Some Gt.
Proof.
  unfold F64.gt. destruct (SFcompare x y) as [[| |]|]; split; congruence.
Qed.

Lemma gt_nan_r (x : float64) : F64.gt x F64.nan = false.
Proof. now destruct x. Qed.

Lemma gt_nan_l (y : float64) : F64.gt F64.nan y = false.
Proof. reflexivity. Qed.

Lemma ge_nan_l (y : float64) : F64.ge F64.nan y = false.
Proof. reflexivity. Qed.

Lemma le_nan_l (y : float64) : F64.le F64.nan y = false.
Proof. reflexivity. Qed.

Lemma ge_nan_r (x : float64) : F64.ge x F64.nan = false.
Proof. now destruct x. Qed.

Lemma le_nan_r (x : float64) : F64.le x F64.nan = false.
Proof. now destruct x. Qed.

(** Equal values are not strictly greater. *)
Lemma gt_irrefl_eq (x y : float64) : SFcompare x y = Some Eq -> F64.gt x y = false.
Proof. unfold F64.gt. now intros ->. Qed.

Lemma SFcompare_antisym (x y : float64) :
  SFcompare y x = option_map CompOpp (SFcompare x y).
Proof.
  destruct x as [sx|sx| |sx mx ex], y as [sy|sy| |sy my ey];
    try reflexivity;
    try (destruct sx; reflexivity);
    try (destruct sy; reflexivity);
    try (destruct sx, sy; reflexivity).
  simpl. destruct sx, sy; simpl; try reflexivity.
  - rewrite (Z.compare_antisym ey ex).
    destruct (ey ?= ex)%Z; simpl; try reflexivity.
    rewrite CompOpp_involutive. f_equal.
    exact (Pos.compare_cont_antisym my mx Eq).
  - rewrite (Z.compare_antisym ey ex).
    destruct (ey ?= ex)%Z; simpl; try reflexivity.
    f_equal. symmetry. exact (Pos.compare_cont_antisym mx my Eq).
Qed.

(** [x >= y] and [y <= x] are the same test. *)
Lemma ge_le (x y : float64) : F64.ge x y = F64.le y x.
Proof.
  unfold F64.ge, F64.le, SFleb. rewrite (SFcompare_antisym x y).
  now destruct (SFcompare x y) as [[| |]|].
Qed.

Lemma add_nan_r (x : float64) : F64.add x F64.nan = F64.nan.
Proof. now destruct x. Qed.

Lemma mul_nan_r (x : float64) : F64.mul x F64.nan = F64.nan.
Proof. now destruct x. Qed.

Lemma umbral_nan_sigma (mu k : float64) : umbral mu F64.nan k = F64.nan.
Proof. unfold umbral. now rewrite mul_nan_r, add_nan_r. Qed.

End Floats.

(** ** Mean and standard deviation *)

Section Statistics.

Lemma nansum_count_acc (s : Series) (a : float64) (n : nat) :
  fold_left
    (fun (acc : float64 * nat) x =>
       if F64.isnan x then acc else (F64.add (fst acc) x, S (snd acc)))
    s (a, n)
  = (fold_left F64.add (numeric_values s) a,
     n + List.length (numeric_values s)).
Proof.
  revert a n. induction s as [|x s IH]; intros a n; simpl.
  - now rewrite Nat.add_0_r.
  - destruct (F64.isnan x); simpl.
    + apply IH.
    + rewrite IH. simpl. f_equal. lia.
Qed.

(** The one-pass reduction sums and counts the numeric values. *)
Lemma nansum_count_spec (s : Series) :
  Pd.nansum_count s =
  (fsum (numeric_values s), List.length (numeric_values s)).
Proof. unfold Pd.nansum_count. now rewrite nansum_count_acc. Qed.

Lemma nansum_sqdev_acc (amean : float64) (s : Series) (a : float64) :
  fold_left
    (fun acc x =>
       if F64.isnan x then acc
       else let d := F64.sub x amean in F64.add acc (F64.mul d d))
    s a
  = fold_left F64.add
      (map (fun x => let d := F64.sub x amean in F64.mul d d)
           (numeric_values s)) a.
Proof.
  revert a. induction s as [|x s IH]; intros a; simpl; [reflexivity |].
  destruct (F64.isnan x); simpl; apply IH.
Qed.


(** [Series.std()] is the sample standard deviation (denominator
    [N - 1]) of the numeric values. *)
Lemma std_spec (s : Series) : Pd.std s = sample_std (numeric_values s).
Proof.
  unfold Pd.std, sample_std, arith_mean. rewrite nansum_count_spec.
  unfold Pd.nansum_sqdev. rewrite nansum_sqdev_acc.
  destruct (numeric_values s) as [|x [|y xs]]; reflexivity.
Qed.

(** With fewer than two numeric values there is no standard deviation. *)
Lemma std_undefined (s : Series) :
  List.length (numeric_values s) <= 1 -> Pd.std s = F64.nan.
Proof.
  intros H. rewrite std_spec. unfold sample_std.
  destruct (Nat.ltb_spec (List.length (numeric_values s)) 2); [reflexivity | lia].
Qed.

End Statistics.

(** ** Running the script *)

Section Running.

Local Open Scope string_scope.

Variable fs : FileSystem.

Lemma leer_csv_run (path : string) (f : File) (st : State) :
  fs path = Some f ->
  leer_csv fs path st =
  (Ok (table f), mkState (trace st ++ loads path f) (stdout st) (globals st)).
Proof.
  intros Hf. unfold leer_csv, read_csv, try_except, bind, emit, loads.
  rewrite Hf. destruct (decodes_utf8 f); simpl; unfold ret.
  - now rewrite <- app_assoc.
  - now rewrite <- !app_assoc.
Qed.

Lemma leer_csv_missing (path : string) (st : State) :
  fs path = None ->
  leer_csv fs path st =
  (Exit 1, mkState (trace st ++ [Stat path])
                   (stdout st ++ [ErrArchivoInexistente path]) (globals st)).
Proof.
  intros Hf. unfold leer_csv, bind, emit, print, sys_exit.
  now rewrite Hf.
Qed.

Lemma bind_ok {A B} (m : M A) (k : A -> M B) (st st' : State) (x : A) :
  m st = (Ok x, st') -> bind m k st = k x st'.
Proof. intros H. unfold bind. now rewrite H. Qed.

Lemma bind_exit {A B} (m : M A) (k : A -> M B) (st st' : State) (c : Z) :
  m st = (Exit c, st') -> bind m k st = (Exit c, st').
Proof. intros H. unfold bind. now rewrite H. Qed.

Lemma pfd_key_nonempty : "Power Flux Density" <> "".
Proof. discriminate. Qed.

Lemma pow_key_nonempty : "Total Spectrum Power" <> "".
Proof. discriminate. Qed.

Lemma freq_key_nonempty : "Frequency" <> "".
Proof. discriminate. Qed.

(** One step of the script on a state that is known. *)
Ltac step :=
  cbn [bind assign ret negb orb andb print sys_exit
       globals trace stdout Py.truthy].

(** Case analysis on a role: either no label matches, or the label
    found is true in a condition and names a column. *)
Ltac resolve df key Hkey :=
  let c := fresh "c" in
  let E := fresh "E" in
  let s := fresh "s" in
  let Hs := fresh "Hs" in
  destruct (buscar_col df key) as [c|] eqn:E;
  [ destruct (buscar_col_column _ _ E) as [s Hs];
    rewrite (buscar_col_truthy _ Hkey E), ?Hs
  | ].

(** A missing baseline stops the run at once. *)
Lemma run_baseline_missing (a : Args) :
  fs (baseline a) = None ->
  run fs a =
  (Exit 1, mkState [Stat (baseline a)]
                   [ErrArchivoInexistente (baseline a)] []).
Proof.
  intros Hb. unfold run, script.
  erewrite bind_exit by (apply leer_csv_missing; exact Hb).
  reflexivity.
Qed.

(** A missing candidate stops it once the baseline is loaded. *)
Lemma run_datafile_missing (a : Args) (fb : File) :
  fs (baseline a) = Some fb -> fs (datafile a) = None ->
  run fs a =
  (Exit 1, mkState (loads (baseline a) fb ++ [Stat (datafile a)])
                   [ErrArchivoInexistente (datafile a)]
                   [("df_base", VFrame (table fb))]).
Proof.
  intros Hb Hd. unfold run, script.
  erewrite bind_ok by (apply leer_csv_run; exact Hb). step.
  erewrite bind_exit by (apply leer_csv_missing; exact Hd).
  reflexivity.
Qed.

(** Without a PFD column in one of the tables it stops after the
    columns are resolved. *)
Lemma run_no_pfd (a : Args) (fb fd : File) :
  fs (baseline a) = Some fb -> fs (datafile a) = Some fd ->
  buscar_col (table fb) "Power Flux Density" = None \/
  buscar_col (table fd) "Power Flux Density" = None ->
  exists st,
    run fs a = (Exit 1, st) /\
    trace st = (loads (baseline a) fb ++ loads (datafile a) fd)%list /\
    stdout st = [ErrNoPFD] /\
    map fst (globals st) =
      ["freq_data"; "pow_data"; "pow_base"; "pfd_data"; "pfd_base";
       "df_data"; "df_base"].
Proof.
  intros Hb Hd Hno. unfold run, script.
  erewrite bind_ok by (apply leer_csv_run; exact Hb). step.
  erewrite bind_ok by (apply leer_csv_run; exact Hd). step.
  destruct (buscar_col (table fb) "Power Flux Density") as [cb|] eqn:Ecb;
    [rewrite (buscar_col_truthy _ pfd_key_nonempty Ecb) |];
    (destruct (buscar_col (table fd) "Power Flux Density") as [cd|] eqn:Ecd;
     [rewrite (buscar_col_truthy _ pfd_key_nonempty Ecd) |]);
    step;
    try (destruct Hno; discriminate);
    (eexists; repeat split; reflexivity).
Qed.

(** With both files in place and a PFD column in both tables the run
    goes through, and leaves the bindings of [Completed]. *)
Lemma run_completes (a : Args) (fb fd : File) (cb cd : string) :
  fs (baseline a) = Some fb -> fs (datafile a) = Some fd ->
  buscar_col (table fb) "Power Flux Density" = Some cb ->
  buscar_col (table fd) "Power Flux Density" = Some cd ->
  exists st,
    run fs a = (Ok tt, st) /\
    trace st = (loads (baseline a) fb ++ loads (datafile a) fd)%list /\
    Completed a (table fb) (table fd) (var (globals st)) cb cd st.
Proof.
  intros Hfb Hfd Hcb Hcd.
  destruct (buscar_col_column _ _ Hcb) as [pfd_b Hpb].
  destruct (buscar_col_column _ _ Hcd) as [pfd_d Hpd].
  pose proof (buscar_col_truthy _ pfd_key_nonempty Hcb) as Tcb.
  pose proof (buscar_col_truthy _ pfd_key_nonempty Hcd) as Tcd.
  unfold run, script, getitem.
  erewrite bind_ok by (apply leer_csv_run; exact Hfb). step.
  erewrite bind_ok by (apply leer_csv_run; exact Hfd).
  rewrite Hcb, Hcd, Tcb, Tcd. step.
  rewrite Hpb, Hpd. step.
  resolve (table fb) "Total Spectrum Power" pow_key_nonempty;
    resolve (table fd) "Total Spectrum Power" pow_key_nonempty;
    resolve (table fd) "Frequency" freq_key_nonempty;
    destruct (freq_min a) as [fmin|] eqn:Emin;
    destruct (freq_max a) as [fmax|] eqn:Emax;
    destruct (n_consec a >? 1)%Z eqn:En;
    destruct (stats a) eqn:Est;
    step;
    repeat match goal with
           | H : Pd.column _ _ = Some _ |- _ => rewrite H
           end;
    step;
    (eexists; split; [reflexivity | split; [reflexivity |]]);
    (eapply completed;
     [ exact Hpb | exact Hpd | reflexivity | reflexivity
     | first [ solve [eapply band_active; eauto]
             | solve [eapply band_inactive; eauto] ]
     | first [ solve [eapply power_enabled; eauto]
             | solve [eapply power_disabled; eauto] ]
     | reflexivity | reflexivity | reflexivity ]).
Qed.

End Running.

(** ** Thresholds *)

Section Thresholds.

Local Open Scope string_scope.

Variable fs : FileSystem.

(** The bindings of a run that went through, read with [global]. *)
Lemma loaded_completed (a : Args) (fb fd : File) (cb cd : string) :
  Loaded fs a fb fd cb cd ->
  outcome fs a = Ok tt /\
  Completed a (table fb) (table fd) (global fs a) cb cd (snd (run fs a)).
Proof.
  intros [Hfb [Hfd [Hcb Hcd]]].
  destruct (run_completes _ _ Hfb Hfd Hcb Hcd) as [st [Hrun [_ Hc]]].
  unfold outcome, global. rewrite Hrun. now split.
Qed.

End Thresholds.

(** The specification's example: mean 10, standard deviation 2 and
    [k = 3] give 16. *)
Example umbral_10_2_3 :
  Pd.mean (Sample.col [8; 12; 10]%Z) = F64.of_Z 10 /\
  Pd.std (Sample.col [8; 12; 10]%Z) = F64.of_Z 2 /\
  umbral (F64.of_Z 10) (F64.of_Z 2) (F64.of_Z 3) = F64.of_Z 16.
Proof. repeat split; vm_compute; reflexivity. Qed.



(** ** Masks *)

Section Masks.

Lemma lookup_In_frame (cols : list (string * Series)) (c : string) (s : Series) :
  Pd.lookup cols c = Some s -> exists name, In (name, s) cols.
Proof.
  induction cols as [|[n s0] cols IH]; simpl; [discriminate |].
  destruct (String.eqb n c).
  - intros [= ->]. exists n. now left.
  - intros H. destruct (IH H) as [name Hin]. exists name. now right.
Qed.

(** Every column of a frame has one cell per row. *)
Lemma column_length (df : DataFrame) (c : string) (s : Series) :
  Pd.column df c = Some s -> List.length s = Pd.len df.
Proof.
  intros H. destruct (lookup_In_frame _ _ H) as [name Hin].
  pose proof (Pd.frame_wf df) as Hwf. rewrite forallb_forall in Hwf.
  specialize (Hwf _ Hin). simpl in Hwf. now apply Nat.eqb_eq in Hwf.
Qed.

Lemma nth_mask_and (a b : list bool) (i : nat) :
  nth i (Pd.mask_and a b) false = nth i a false && nth i b false.
Proof.
  revert b i. induction a as [|x a IH]; intros [|y b] [|i]; simpl;
    try reflexivity; try (now rewrite andb_false_r).
  apply IH.
Qed.

Lemma length_mask_and (a b : list bool) :
  List.length (Pd.mask_and a b) = Nat.min (List.length a) (List.length b).
Proof.
  revert b. induction a as [|x a IH]; intros [|y b]; simpl; try reflexivity.
  now rewrite IH.
Qed.

(** A row outside the column reads as NaN, which compares false. *)
Lemma nth_gt_scalar (s : Series) (t : float64) (i : nat) :
  nth i (Pd.gt_scalar s t) false = F64.gt (nth i s F64.nan) t.
Proof. unfold Pd.gt_scalar. now rewrite <- (map_nth (fun x => F64.gt x t)). Qed.

Lemma nth_ge_scalar (s : Series) (t : float64) (i : nat) :
  nth i (Pd.ge_scalar s t) false = F64.ge (nth i s F64.nan) t.
Proof. unfold Pd.ge_scalar. now rewrite <- (map_nth (fun x => F64.ge x t)). Qed.

Lemma nth_le_scalar (s : Series) (t : float64) (i : nat) :
  nth i (Pd.le_scalar s t) false = F64.le (nth i s F64.nan) t.
Proof. unfold Pd.le_scalar. now rewrite <- (map_nth (fun x => F64.le x t)). Qed.

Lemma length_gt_scalar (s : Series) (t : float64) :
  List.length (Pd.gt_scalar s t) = List.length s.
Proof. apply length_map. Qed.

Lemma nth_band_filter (freq : Series) (fmin fmax : float64) (i : nat) :
  nth i (band_filter freq fmin fmax) false =
  F64.le fmin (nth i freq F64.nan) && F64.le (nth i freq F64.nan) fmax.
Proof.
  unfold band_filter.
  now rewrite nth_mask_and, nth_ge_scalar, nth_le_scalar, ge_le.
Qed.

Lemma length_band_filter (freq : Series) (fmin fmax : float64) :
  List.length (band_filter freq fmin fmax) = List.length freq.
Proof.
  unfold band_filter, Pd.ge_scalar, Pd.le_scalar.
  rewrite length_mask_and, !length_map. lia.
Qed.

(** A mask without a true row gives no detection, whatever [n_consec]. *)
Lemma dron_detectado_all_false (mask : list bool) (n : Z) :
  (forall i, nth i mask false = false) -> dron_detectado n mask = false.
Proof.
  intros Hall. unfold dron_detectado. destruct (Z.gtb_spec n 1) as [H1 | H1].
  - destruct (Pd.any (hits n mask)) eqn:E; [| reflexivity].
    apply any_hits_iff in E. destruct E as [i [Hi Hs]].
    apply window_sum_reaches in Hs; [| lia | exact Hi].
    assert (Hn : Z.of_nat (Z.to_nat n) = n) by lia.
    rewrite <- Hn in Hs at 2.
    pose proof (proj1 (@window_full_iff _ _ _ Hi) Hs) as Hw.
    specialize (Hw 0%nat). rewrite Hall in Hw. clear Hs. rename Hw into Hs.
    assert (false = true) by (apply Hs; lia). discriminate.
  - destruct (Pd.any mask) eqn:E; [| reflexivity].
    apply any_iff in E. destruct E as [i [_ Hi]]. now rewrite Hall in Hi.
Qed.

Variables (a : Args) (df_base df_data : DataFrame) (g : string -> option value).

Lemma band_length (band : list bool) :
  BandFacts a df_data band -> List.length band = Pd.len df_data.
Proof.
  intros [c fmin fmax freq _ _ _ Hf -> | _ ->].
  - rewrite length_band_filter. now apply column_length with (c := c).
  - apply repeat_length.
Qed.

Lemma power_length (pfd_mask mask : list bool) :
  PowerFacts a df_base df_data g pfd_mask mask ->
  List.length pfd_mask = Pd.len df_data ->
  List.length mask = Pd.len df_data.
Proof.
  intros [cb cd pow_b pow_d _ _ _ Hd _ -> | _ _ ->] Hlen; [| exact Hlen].
  rewrite length_mask_and, length_gt_scalar, Hlen.
  rewrite (column_length _ _ Hd). lia.
Qed.

End Masks.

(** ** The instantaneous mask *)

(** C3. Row by row, the instantaneous mask is true exactly when the
    row's PFD value is strictly greater than the PFD threshold, the row
    is in band, and either the power criterion is disabled (no power
    threshold) or the row's power value is strictly greater than the
    power threshold.  Both comparisons are strict: a value equal to its
    threshold compares [Eq], not [Gt]. *)
Theorem instant_mask_rows
        (fs : FileSystem) (a : Args) (fb fd : File) (cb cd : string) :
  Loaded fs a fb fd cb cd ->
  exists pfd thr band mask,
    Pd.column (table fd) cd = Some pfd /\
    global fs a "thr_pfd" = Some (VFloat thr) /\
    global fs a "band_mask" = Some (VMask band) /\
    global fs a "instant_mask" = Some (VMask mask) /\
    List.length mask = Pd.len (table fd) /\
    forall i, i < Pd.len (table fd) ->
      (nth i mask false = true <->
       SFcompare (nth i pfd F64.nan) thr = Some Gt /\
       nth i band false = true /\
       (global fs a "thr_power" = Some VNone \/
        exists c pow thr_power,
          buscar_col (table fd) "Total Spectrum Power" = Some c /\
          Pd.column (table fd) c = Some pow /\
          global fs a "thr_power" = Some (VFloat thr_power) /\
          SFcompare (nth i pow F64.nan) thr_power = Some Gt)).
Proof.
  intros HL. destruct (loaded_completed HL) as [_ Hc].
  destruct Hc as [pfd_b pfd_d band mask Hb Hd Hthr Hbm Hband Hpow Him _ _].
  exists pfd_d, (umbral (Pd.mean pfd_b) (Pd.std pfd_b) (ksigma a)), band, mask.
  repeat (split; [assumption |]). split.
  - apply (power_length Hpow).
    rewrite length_mask_and, length_gt_scalar.
    rewrite (column_length _ _ Hd), (band_length Hband). lia.
  - intros i _.
    destruct Hpow as [c c' pow_b pow_d Hc Hc' Hpb Hpd Hg -> | Hno Hg ->];
      rewrite ?nth_mask_and, ?nth_gt_scalar, ?andb_true_iff, ?gt_iff.
    + split.
      * intros [[Hpfd Hbd] Hpw]. repeat split; trivial.
        right. exists c', pow_d, (umbral (Pd.mean pow_b) (Pd.std pow_b) (ksigma a)).
        repeat split; trivial.
      * intros [Hpfd [Hbd [Hnone | [c0 [pow [t [Hc0 [Hp0 [Ht Hcmp]]]]]]]]].
        -- rewrite Hg in Hnone. discriminate.
        -- rewrite Hc' in Hc0. injection Hc0 as <-.
           rewrite Hpd in Hp0. injection Hp0 as <-.
           rewrite Hg in Ht. injection Ht as <-. repeat split; trivial.
    + split.
      * intros [Hpfd Hbd]. repeat split; trivial. now left.
      * intros [Hpfd [Hbd _]]. now split.
Qed.

Lemma instant_mask_rows_witness :
  Loaded Sample.fs (Sample.args "baseline.csv" "data.csv")
         (mkFile true Sample.base) (mkFile false Sample.data)
         "Power Flux Density (dBm/m2)" "power flux density" /\
  exists mask,
    global Sample.fs (Sample.args "baseline.csv" "data.csv") "instant_mask"
    = Some (VMask mask) /\
    List.length mask = 4.
Proof.
  assert (HL : Loaded Sample.fs (Sample.args "baseline.csv" "data.csv")
                      (mkFile true Sample.base) (mkFile false Sample.data)
                      "Power Flux Density (dBm/m2)" "power flux density")
    by (repeat split; reflexivity).
  split; [exact HL |].
  destruct (instant_mask_rows HL) as [pfd [thr [band [mask [_ [_ [_ [Hm [Hlen _]]]]]]]]].
  exists mask. split; [exact Hm | exact Hlen].
Defined.

(** The mask of the sample run: rows 0 and 1 exceed both thresholds in
    band, row 2 is out of band, row 3 equals the PFD threshold 16. *)
Example instant_mask_sample :
  global Sample.fs (Sample.args "baseline.csv" "data.csv") "instant_mask"
  = Some (VMask [true; true; false; false]).
Proof. vm_compute. reflexivity. Qed.

(** ** The band filter *)

(** The specification's example: between 2400 and 2483.5 MHz a row at
    2410 passes and a row at 2500 does not. *)
Example band_filter_2400_2483 :
  band_filter (Sample.col [2410; 2500]%Z)
              (F64.of_Z 2400) (F64.of_dyadic 4967 1)
  = [true; false].
Proof. vm_compute. reflexivity. Qed.

(** C5. The band filter is active only when a frequency column is
    resolved in the candidate and both bounds are configured.  Active,
    it passes a row exactly when [freq_min <= frequency <= freq_max],
    both ends included; inactive (no frequency column, or a bound
    missing), it passes every row.  A row it excludes is excluded from
    the instantaneous mask whatever its PFD and power values. *)
Theorem band_mask_filter
        (fs : FileSystem) (a : Args) (fb fd : File) (cb cd : string) :
  Loaded fs a fb fd cb cd ->
  exists band mask,
    global fs a "band_mask" = Some (VMask band) /\
    global fs a "instant_mask" = Some (VMask mask) /\
    List.length band = Pd.len (table fd) /\
    (buscar_col (table fd) "Frequency" = None \/
     freq_min a = None \/ freq_max a = None ->
     forall i, i < Pd.len (table fd) -> nth i band false = true) /\
    (forall c fmin fmax,
       buscar_col (table fd) "Frequency" = Some c ->
       freq_min a = Some fmin -> freq_max a = Some fmax ->
       exists freq,
         Pd.column (table fd) c = Some freq /\
         forall i, i < Pd.len (table fd) ->
           (nth i band false = true <->
            F64.le fmin (nth i freq F64.nan) = true /\
            F64.le (nth i freq F64.nan) fmax = true)) /\
    (forall i, nth i band false = false -> nth i mask false = false).
Proof.
  intros HL. destruct (loaded_completed HL) as [_ Hc].
  destruct Hc as [pfd_b pfd_d band mask Hb Hd Hthr Hbm Hband Hpow Him _ _].
  exists band, mask. repeat (split; [assumption |]).
  split; [exact (band_length Hband) |]. split; [| split].
  - intros Hoff i Hi.
    destruct Hband as [c fmin fmax freq Hc Hmin Hmax Hf -> | _ ->].
    + destruct Hoff as [H | [H | H]]; congruence.
    + now apply nth_repeat_lt.
  - intros c fmin fmax Hc Hmin Hmax.
    destruct Hband as [c' fmin' fmax' freq Hc' Hmin' Hmax' Hf -> | Hoff _].
    + assert (c' = c) as -> by congruence.
      assert (fmin' = fmin) as -> by congruence.
      assert (fmax' = fmax) as -> by congruence.
      exists freq. split; [exact Hf |]. intros i _.
      now rewrite nth_band_filter, andb_true_iff.
    + destruct Hoff as [H | [H | H]]; congruence.
  - intros i Hi.
    destruct Hpow as [c c' pow_b pow_d _ _ _ _ _ -> | _ _ ->];
      rewrite ?nth_mask_and, Hi, ?andb_false_r; reflexivity.
Qed.

Lemma band_mask_filter_witness :
  Loaded Sample.fs (Sample.args "baseline.csv" "data.csv")
         (mkFile true Sample.base) (mkFile false Sample.data)
         "Power Flux Density (dBm/m2)" "power flux density" /\
  exists band,
    global Sample.fs (Sample.args "baseline.csv" "data.csv") "band_mask"
    = Some (VMask band) /\
    List.length band = 4.
Proof.
  assert (HL : Loaded Sample.fs (Sample.args "baseline.csv" "data.csv")
                      (mkFile true Sample.base) (mkFile false Sample.data)
                      "Power Flux Density (dBm/m2)" "power flux density")
    by (repeat split; reflexivity).
  split; [exact HL |].
  destruct (band_mask_filter HL) as [band [mask [Hband [_ [Hlen _]]]]].
  exists band. split; [exact Hband | exact Hlen].
Defined.

(** ** The power criterion *)

(** C6. A power threshold is computed, and the power comparison made,
    exactly when a power column is resolved in the baseline and in the
    candidate.  Resolved in one table only, or in none, the criterion is
    disabled: [thr_power] stays [None], and the mask and the verdict are
    those of the PFD criterion and the band filter alone. *)
Theorem power_criterion_needs_both
        (fs : FileSystem) (a : Args) (fb fd : File) (cb cd : string) :
  Loaded fs a fb fd cb cd ->
  ((exists t, global fs a "thr_power" = Some (VFloat t)) <->
   (exists pb pd,
      buscar_col (table fb) "Total Spectrum Power" = Some pb /\
      buscar_col (table fd) "Total Spectrum Power" = Some pd)) /\
  (buscar_col (table fb) "Total Spectrum Power" = None \/
   buscar_col (table fd) "Total Spectrum Power" = None ->
   global fs a "thr_power" = Some VNone /\
   exists pfd thr band,
     Pd.column (table fd) cd = Some pfd /\
     global fs a "thr_pfd" = Some (VFloat thr) /\
     global fs a "band_mask" = Some (VMask band) /\
     global fs a "instant_mask" =
       Some (VMask (Pd.mask_and (Pd.gt_scalar pfd thr) band)) /\
     global fs a "dron_detectado" =
       Some (VBool (dron_detectado (n_consec a)
                      (Pd.mask_and (Pd.gt_scalar pfd thr) band)))).
Proof.
  intros HL. destruct (loaded_completed HL) as [_ Hc].
  destruct Hc as [pfd_b pfd_d band mask Hb Hd Hthr Hbm Hband Hpow Him Hdd _].
  split.
  - destruct Hpow as [c c' pow_b pow_d Hc Hc' _ _ Hg _ | Hno Hg _].
    + split; [intros _; now exists c, c' | intros _; eexists; exact Hg].
    + split.
      * intros [t Ht]. rewrite Hg in Ht. discriminate.
      * intros [pb [pd [Hpb Hpd]]]. destruct Hno; congruence.
  - intros Hno.
    destruct Hpow as [c c' pow_b pow_d Hc Hc' _ _ Hg _ | _ Hg ->].
    + destruct Hno; congruence.
    + split; [exact Hg |].
      exists pfd_d, (umbral (Pd.mean pfd_b) (Pd.std pfd_b) (ksigma a)), band.
      now repeat split.
Qed.

Lemma power_criterion_needs_both_witness :
  Loaded Sample.fs (Sample.args "baseline.csv" "pfd_only.csv")
         (mkFile true Sample.base) (mkFile true Sample.data_pfd_only)
         "Power Flux Density (dBm/m2)" "power flux density" /\
  (buscar_col Sample.base "Total Spectrum Power" = None \/
   buscar_col Sample.data_pfd_only "Total Spectrum Power" = None) /\
  global Sample.fs (Sample.args "baseline.csv" "pfd_only.csv") "thr_power"
  = Some VNone.
Proof.
  assert (HL : Loaded Sample.fs (Sample.args "baseline.csv" "pfd_only.csv")
                      (mkFile true Sample.base) (mkFile true Sample.data_pfd_only)
                      "Power Flux Density (dBm/m2)" "power flux density")
    by (repeat split; reflexivity).
  assert (Hno : buscar_col Sample.base "Total Spectrum Power" = None \/
                buscar_col Sample.data_pfd_only "Total Spectrum Power" = None)
    by (right; reflexivity).
  split; [exact HL |]. split; [exact Hno |].
  exact (proj1 (proj2 (power_criterion_needs_both HL) Hno)).
Defined.

(** ** Undefined statistics *)

Lemma numeric_values_length (s : Series) :
  List.length (numeric_values s) <= List.length s.
Proof.
  induction s as [|x s IH]; simpl; [lia |].
  destruct (F64.isnan x); simpl; lia.
Qed.

(** A baseline of at most one row has no standard deviation, in any of
    its columns. *)
Lemma std_short_frame (df : DataFrame) (c : string) (s : Series) :
  Pd.len df <= 1 -> Pd.column df c = Some s -> Pd.std s = F64.nan.
Proof.
  intros Hlen Hc. apply std_undefined.
  pose proof (numeric_values_length s). rewrite (column_length _ _ Hc) in *. lia.
Qed.

(** The statistics of the two sample baselines of fewer than two rows. *)
Example std_single_row :
  Pd.mean (Sample.col [8]%Z) = F64.of_Z 8 /\
  Pd.std (Sample.col [8]%Z) = F64.nan /\
  Pd.mean [] = F64.nan /\ Pd.std [] = F64.nan.
Proof. repeat split; vm_compute; reflexivity. Qed.

(** C4. When the baseline has too few rows for a sample standard
    deviation (none, or a single one), the PFD threshold is NaN, and so
    is the power threshold if one is computed; a comparison with NaN on
    either side is false; the run ends normally, with an instantaneous
    mask that is false on every row and a negative verdict. *)
Theorem undefined_threshold_is_nan
        (fs : FileSystem) (a : Args) (fb fd : File) (cb cd : string) :
  Loaded fs a fb fd cb cd ->
  Pd.len (table fb) <= 1 ->
  global fs a "thr_pfd" = Some (VFloat F64.nan) /\
  (global fs a "thr_power" = Some VNone \/
   global fs a "thr_power" = Some (VFloat F64.nan)) /\
  (forall x : float64,
     F64.gt x F64.nan = false /\ F64.gt F64.nan x = false /\
     F64.ge F64.nan x = false /\ F64.le F64.nan x = false) /\
  outcome fs a = Ok tt /\
  (exists mask,
     global fs a "instant_mask" = Some (VMask mask) /\
     forall i, nth i mask false = false) /\
  global fs a "dron_detectado" = Some (VBool false).
Proof.
  intros HL Hlen. destruct (loaded_completed HL) as [Hok Hc].
  destruct Hc as [pfd_b pfd_d band mask Hb Hd Hthr Hbm Hband Hpow Him Hdd _].
  rewrite (std_short_frame _ _ Hlen Hb), umbral_nan_sigma in *.
  assert (Hall : forall i, nth i mask false = false).
  { intros i.
    destruct Hpow as [c c' pow_b pow_d _ _ _ _ _ -> | _ _ ->];
      now rewrite ?nth_mask_and, nth_gt_scalar, gt_nan_r. }
  split; [exact Hthr |]. split; [| split; [| split; [exact Hok | split]]].
  - destruct Hpow as [c c' pow_b pow_d _ _ Hpb _ Hg _ | _ Hg _].
    + right. now rewrite (std_short_frame _ _ Hlen Hpb), umbral_nan_sigma in Hg.
    + now left.
  - intros x.
    split; [apply gt_nan_r |].
    split; [apply gt_nan_l |].
    split; [apply ge_nan_l | apply le_nan_l].
  - now exists mask.
  - now rewrite Hdd, (dron_detectado_all_false _ _ Hall).
Qed.

Lemma undefined_threshold_is_nan_witness :
  Loaded Sample.fs (Sample.args "one_row.csv" "data.csv")
         (mkFile true Sample.base_one_row) (mkFile false Sample.data)
         "Power Flux Density (dBm/m2)" "power flux density" /\
  Pd.len Sample.base_one_row <= 1 /\
  global Sample.fs (Sample.args "one_row.csv" "data.csv") "thr_pfd"
  = Some (VFloat F64.nan) /\
  global Sample.fs (Sample.args "one_row.csv" "data.csv") "dron_detectado"
  = Some (VBool false).
Proof.
  assert (HL : Loaded Sample.fs (Sample.args "one_row.csv" "data.csv")
                      (mkFile true Sample.base_one_row) (mkFile false Sample.data)
                      "Power Flux Density (dBm/m2)" "power flux density")
    by (repeat split; reflexivity).
  assert (Hlen : Pd.len Sample.base_one_row <= 1) by (simpl; lia).
  split; [exact HL |]. split; [exact Hlen |].
  destruct (undefined_threshold_is_nan HL Hlen) as [Hthr [_ [_ [_ [_ Hdd]]]]].
  split; [exact Hthr | exact Hdd].
Defined.

(** ** Configuration errors *)

Lemma var_unbound (g : list (string * value)) (name : string) :
  ~ In name (map fst g) -> var g name = None.
Proof.
  induction g as [|[n v] g IH]; simpl; [reflexivity |].
  intros H. destruct (String.eqb_spec n name) as [-> | _].
  - exfalso. apply H. now left.
  - apply IH. intros Hin. apply H. now right.
Qed.

(** None of the names bound before the PFD check is a detection name. *)
Lemma detection_names_fresh (name : string) :
  In name detection_names ->
  ~ In name ["freq_data"; "pow_data"; "pow_base"; "pfd_data"; "pfd_base";
             "df_data"; "df_base"]%string.
Proof.
  unfold detection_names. simpl.
  intros Hin Hin'.
  repeat (destruct Hin as [<- | Hin];
          [repeat (destruct Hin' as [Hin' | Hin']; [discriminate |]);
           exact Hin' |]).
  exact Hin.
Qed.

(** C8. A configuration error (an input file that does not exist, or a
    table without a Power Flux Density column) ends the run with
    [sys.exit(1)] and leaves every name of the threshold and detection
    steps unbound.  When the baseline file is the one missing, the only
    access to the outside world is the test of its path: the candidate
    file is not touched. *)
Theorem fatal_error_aborts (fs : FileSystem) (a : Args) :
  (fs (baseline a) = None \/
   fs (datafile a) = None \/
   exists fb fd,
     fs (baseline a) = Some fb /\ fs (datafile a) = Some fd /\
     (buscar_col (table fb) "Power Flux Density" = None \/
      buscar_col (table fd) "Power Flux Density" = None)) ->
  outcome fs a = Exit 1 /\
  (forall name, In name detection_names -> global fs a name = None) /\
  (fs (baseline a) = None ->
   trace (snd (run fs a)) = [Stat (baseline a)] /\
   global fs a "df_data" = None).
Proof.
  intros Hfatal. unfold outcome, global.
  destruct (fs (baseline a)) as [fb|] eqn:Eb.
  - destruct (fs (datafile a)) as [fd|] eqn:Ed.
    + assert (Hno : buscar_col (table fb) "Power Flux Density" = None \/
                    buscar_col (table fd) "Power Flux Density" = None).
      { destruct Hfatal as [H | [H | [fb' [fd' [Hb [Hd H]]]]]];
          try discriminate.
        injection Hb as <-. injection Hd as <-. exact H. }
      destruct (run_no_pfd _ _ Eb Ed Hno) as [st [Hrun [_ [_ Hnames]]]].
      rewrite Hrun. cbn [fst snd]. split; [reflexivity |].
      split; [| discriminate].
      intros name Hin. apply var_unbound. rewrite Hnames.
      now apply detection_names_fresh.
    + rewrite (run_datafile_missing _ _ Eb Ed). cbn [fst snd globals].
      split; [reflexivity |]. split; [| discriminate].
      intros name Hin. apply var_unbound. cbn [map fst].
      intros Hin'. apply (@detection_names_fresh name Hin).
      destruct Hin' as [<- | []]. cbn [In]. tauto.
  - rewrite (run_baseline_missing _ _ Eb). cbn [fst snd globals trace].
    split; [reflexivity |]. split; [reflexivity | now split].
Qed.

Lemma fatal_error_aborts_witness :
  Sample.fs (baseline (Sample.args "missing.csv" "data.csv")) = None /\
  outcome Sample.fs (Sample.args "missing.csv" "data.csv") = Exit 1 /\
  trace (snd (run Sample.fs (Sample.args "missing.csv" "data.csv")))
  = [Stat "missing.csv"].
Proof.
  assert (Hb : Sample.fs (baseline (Sample.args "missing.csv" "data.csv")) = None)
    by reflexivity.
  split; [exact Hb |].
  destruct (fatal_error_aborts Sample.fs (Sample.args "missing.csv" "data.csv")
              (or_introl Hb)) as [Hexit [_ Htrace]].
  split; [exact Hexit | exact (proj1 (Htrace Hb))].
Defined.

(** The other two configuration errors on the sample files. *)
Example fatal_errors_sample :
  run Sample.fs (Sample.args "baseline.csv" "missing.csv")
  = (Exit 1,
     mkState [Stat "baseline.csv"; ReadCsv "baseline.csv" Utf8;
              Stat "missing.csv"]
             [ErrArchivoInexistente "missing.csv"]
             [("df_base"%string, VFrame Sample.base)]) /\
  outcome Sample.fs (Sample.args "baseline.csv" "no_pfd.csv") = Exit 1 /\
  stdout (snd (run Sample.fs (Sample.args "baseline.csv" "no_pfd.csv")))
  = [ErrNoPFD].
Proof. repeat split; reflexivity. Qed.

(** ** Thresholds and the candidate *)

(** Two runs on the sample baseline with the same [k]: the candidate
    with a power column gets the power threshold 5, the candidate
    without one gets [None].  So the thresholds are not a function of
    the baseline and [k] alone. *)
Lemma thr_power_depends_on_candidate :
  global Sample.fs (Sample.args "baseline.csv" "data.csv") "thr_power"
  = Some (VFloat (F64.of_Z 5)) /\
  global Sample.fs (Sample.args "baseline.csv" "pfd_only.csv") "thr_power"
  = Some VNone /\
  ~ thresholds_ignore_candidate.
Proof.
  split; [vm_compute; reflexivity |]. split; [vm_compute; reflexivity |].
  intros H.
  destruct (H Sample.fs
              (Sample.args "baseline.csv" "data.csv")
              (Sample.args "baseline.csv" "pfd_only.csv")
              (mkFile true Sample.base) (mkFile false Sample.data)
              (mkFile true Sample.data_pfd_only)
              eq_refl eq_refl eq_refl eq_refl eq_refl) as [_ Hpow].
  vm_compute in Hpow. discriminate.
Qed.

(** C9, amended. Two runs on the same baseline table with the same [k]
    that both pass the configuration checks bind the same PFD threshold;
    they bind the same power threshold as soon as their candidates agree
    on having a power column.  Nothing else of the candidates (their
    rows, their values, their other columns) is assumed: the cells of
    the candidate never reach a threshold. *)
Theorem thresholds_from_baseline
        (fs1 fs2 : FileSystem) (a1 a2 : Args)
        (fb1 fb2 fd1 fd2 : File) (cb1 cb2 cd1 cd2 : string) :
  Loaded fs1 a1 fb1 fd1 cb1 cd1 ->
  Loaded fs2 a2 fb2 fd2 cb2 cd2 ->
  table fb1 = table fb2 ->
  ksigma a1 = ksigma a2 ->
  global fs1 a1 "thr_pfd" = global fs2 a2 "thr_pfd" /\
  ((buscar_col (table fd1) "Total Spectrum Power" = None <->
    buscar_col (table fd2) "Total Spectrum Power" = None) ->
   global fs1 a1 "thr_power" = global fs2 a2 "thr_power").
Proof.
  intros HL1 HL2 Htab Hk.
  destruct (loaded_completed HL1) as [_ Hc1].
  destruct (loaded_completed HL2) as [_ Hc2].
  destruct HL1 as [_ [_ [Hcb1 _]]]. destruct HL2 as [_ [_ [Hcb2 _]]].
  destruct Hc1 as [pfd_b1 pfd_d1 band1 mask1 Hb1 _ Hthr1 _ _ Hpow1 _ _ _].
  destruct Hc2 as [pfd_b2 pfd_d2 band2 mask2 Hb2 _ Hthr2 _ _ Hpow2 _ _ _].
  destruct Hpow1 as [c1 c1' pb1 pd1 Hc1 Hc1' Hpb1 _ Hg1 _ | Hno1 Hg1 _];
    destruct Hpow2 as [c2 c2' pb2 pd2 Hc2 Hc2' Hpb2 _ Hg2 _ | Hno2 Hg2 _];
    rewrite <- ?Htab, <- ?Hk in *;
    (assert (cb2 = cb1) as -> by congruence);
    (assert (pfd_b2 = pfd_b1) as -> by congruence);
    (split; [congruence |]); intros Hsame.
  - assert (c2 = c1) as -> by congruence.
    assert (pb2 = pb1) as -> by congruence. congruence.
  - exfalso. destruct Hno2 as [H | H]; [congruence |].
    apply Hsame in H. congruence.
  - exfalso. destruct Hno1 as [H | H]; [congruence |].
    apply Hsame in H. congruence.
  - congruence.
Qed.

Lemma thresholds_from_baseline_witness :
  Loaded Sample.fs (Sample.args "baseline.csv" "data.csv")
         (mkFile true Sample.base) (mkFile false Sample.data)
         "Power Flux Density (dBm/m2)" "power flux density" /\
  Loaded Sample.fs (Sample.args "baseline.csv" "other.csv")
         (mkFile true Sample.base) (mkFile true Sample.data_other)
         "Power Flux Density (dBm/m2)" "PFD - Power Flux Density" /\
  global Sample.fs (Sample.args "baseline.csv" "data.csv") "thr_pfd"
  = global Sample.fs (Sample.args "baseline.csv" "other.csv") "thr_pfd" /\
  global Sample.fs (Sample.args "baseline.csv" "data.csv") "thr_power"
  = global Sample.fs (Sample.args "baseline.csv" "other.csv") "thr_power".
Proof.
  assert (HL1 : Loaded Sample.fs (Sample.args "baseline.csv" "data.csv")
                       (mkFile true Sample.base) (mkFile false Sample.data)
                       "Power Flux Density (dBm/m2)" "power flux density")
    by (repeat split; reflexivity).
  assert (HL2 : Loaded Sample.fs (Sample.args "baseline.csv" "other.csv")
                       (mkFile true Sample.base) (mkFile true Sample.data_other)
                       "Power Flux Density (dBm/m2)" "PFD - Power Flux Density")
    by (repeat split; reflexivity).
  split; [exact HL1 |]. split; [exact HL2 |].
  destruct (thresholds_from_baseline HL1 HL2 eq_refl eq_refl) as [Hpfd Hpow].
  split; [exact Hpfd |]. apply Hpow.
  split; intros H; vm_compute in H; discriminate.
Defined.

(** ** Short candidates *)



(** A candidate of four rows and [--n-consec 5]: every row passes the
    instantaneous test, and no drone is reported. *)
Example short_candidate_sample :
  global Sample.fs
         (mkArgs "baseline.csv" "pfd_only.csv" (F64.of_Z 1) None None 5 false)
         "instant_mask"
  = Some (VMask [true; true; true; true]) /\
  global Sample.fs
         (mkArgs "baseline.csv" "pfd_only.csv" (F64.of_Z 1) None None 5 false)
         "dron_detectado"
  = Some (VBool false).
Proof. split; vm_compute; reflexivity. Qed.

(* ================================================================== *)
(** * Part III: further properties of the two scripts                  *)
(* ================================================================== *)

(** ** The resolver on larger tables *)

(** Appending columns to a table does not change a label already
    resolved; the appended columns are searched only when the first
    ones hold no match. *)
Theorem buscar_col_in_app (cols more : list string) (key : string) :
  buscar_col_in (cols ++ more) key =
  match buscar_col_in cols key with
  | Some c => Some c
  | None => buscar_col_in more key
  end.
Proof.
  induction cols as [|c cols IH]; simpl; [reflexivity |].
  destruct (Py.str_in (Py.lower key) (Py.lower c)); [reflexivity | exact IH].
Qed.

(** A label the resolver returns is a label of the table, the lookup of
    that label succeeds, and the column it yields has one cell per row:
    indexing the table with a resolved label cannot raise [KeyError]. *)
Theorem buscar_col_resolves_column (df : DataFrame) (key c : string) :
  buscar_col df key = Some c ->
  In c (Pd.columns df) /\
  exists s, Pd.column df c = Some s /\ List.length s = Pd.len df.
Proof.
  intros H. split.
  - eapply buscar_col_in_In, H.
  - destruct (buscar_col_column _ _ H) as [s Hs]. exists s.
    split; [exact Hs | exact (column_length _ _ Hs)].
Qed.

Lemma buscar_col_resolves_column_witness :
  buscar_col Sample.data "Power Flux Density" = Some "power flux density"%string /\
  In "power flux density"%string (Pd.columns Sample.data) /\
  exists s, Pd.column Sample.data "power flux density" = Some s /\
            List.length s = Pd.len Sample.data.
Proof.
  assert (H : buscar_col Sample.data "Power Flux Density"
              = Some "power flux density"%string) by reflexivity.
  split; [exact H |]. exact (buscar_col_resolves_column _ _ H).
Defined.

(** ** The verdict, row by row *)

Section Verdict.

Local Open Scope Z_scope.

Lemma nth_true_in_range (m : list bool) (i : nat) :
  nth i m false = true -> (i < List.length m)%nat.
Proof.
  intros H. destruct (Nat.lt_ge_cases i (List.length m)) as [Hlt | Hge];
    [exact Hlt |].
  rewrite nth_overflow in H by exact Hge. discriminate.
Qed.

(** The verdict is true exactly when some row closes a stretch of
    [max 1 n_consec] true rows. *)
Lemma verdict_rows (n : Z) (mask : list bool) :
  dron_detectado n mask = true <->
  exists i,
    (Z.to_nat (Z.max 1 n) <= i + 1)%nat /\
    forall j, (j < Z.to_nat (Z.max 1 n))%nat ->
              nth (i + 1 - Z.to_nat (Z.max 1 n) + j) mask false = true.
Proof.
  unfold dron_detectado. destruct (Z.gtb_spec n 1) as [H1 | H1].
  - replace (Z.max 1 n) with n by lia. rewrite any_hits_iff. split.
    + intros [i [Hi Hs]]. exists i. split; [lia |].
      apply window_sum_reaches in Hs; [| lia | exact Hi].
      apply window_full_iff; [exact Hi | lia].
    + intros [i [Hi Hrows]].
      assert (Hin : (i < List.length mask)%nat).
      { apply nth_true_in_range.
        specialize (Hrows (Z.to_nat n - 1)%nat).
        replace (i + 1 - Z.to_nat n + (Z.to_nat n - 1))%nat with i in Hrows by lia.
        apply Hrows. lia. }
      assert (Hi' : (Z.to_nat n <= i + 1 <= List.length mask)%nat) by lia.
      exists i. split; [exact Hi' |].
      apply window_sum_reaches; [lia | exact Hi' |].
      pose proof (proj2 (@window_full_iff _ _ _ Hi') Hrows). lia.
  - replace (Z.max 1 n) with 1 by lia. rewrite any_iff.
    change (Z.to_nat 1) with 1%nat. split.
    + intros [i [_ Hi]]. exists i. split; [lia |].
      intros j Hj. replace (i + 1 - 1 + j)%nat with i by lia. exact Hi.
    + intros [i [_ Hrows]]. specialize (Hrows 0%nat).
      replace (i + 1 - 1 + 0)%nat with i in Hrows by lia.
      exists i. assert (Hi : nth i mask false = true) by (apply Hrows; lia).
      split; [now apply nth_true_in_range | exact Hi].
Qed.



End Verdict.

(** Raising [--n-consec] can only lose detections: a mask that triggers
    at [n] triggers at every smaller setting, down to the plain OR. *)
Theorem dron_detectado_antitone (mask : list bool) (m n : Z) :
  (m <= n)%Z ->
  dron_detectado n mask = true -> dron_detectado m mask = true.
Proof.
  intros Hmn Hn. apply verdict_rows in Hn. apply verdict_rows.
  destruct Hn as [i [Hi Hrows]]. exists i. split; [lia |].
  intros j Hj.
  replace (i + 1 - Z.to_nat (Z.max 1 m) + j)
    with (i + 1 - Z.to_nat (Z.max 1 n)
          + (Z.to_nat (Z.max 1 n) - Z.to_nat (Z.max 1 m) + j)) by lia.
  apply Hrows. lia.
Qed.

Lemma dron_detectado_antitone_witness :
  (2 <= 3)%Z /\
  dron_detectado 3 [true; true; false; true; true; true] = true /\
  dron_detectado 2 [true; true; false; true; true; true] = true.
Proof.
  assert (Hmn : (2 <= 3)%Z) by lia.
  assert (H3 : dron_detectado 3 [true; true; false; true; true; true] = true)
    by reflexivity.
  split; [exact Hmn |]. split; [exact H3 |].
  exact (dron_detectado_antitone _ Hmn H3).
Defined.

(** Turning rows of the mask from false to true can only add a
    detection, whatever [n_consec]. *)
Theorem dron_detectado_monotone (n : Z) (mask mask' : list bool) :
  (forall i, nth i mask false = true -> nth i mask' false = true) ->
  dron_detectado n mask = true -> dron_detectado n mask' = true.
Proof.
  intros Hle Hd. apply verdict_rows in Hd. apply verdict_rows.
  destruct Hd as [i [Hi Hrows]]. exists i. split; [exact Hi |].
  intros j Hj. apply Hle, Hrows, Hj.
Qed.

Lemma dron_detectado_monotone_witness :
  (forall i, nth i [false; true; true] false = true ->
             nth i [true; true; true] false = true) /\
  dron_detectado 2 [false; true; true] = true /\
  dron_detectado 2 [true; true; true] = true.
Proof.
  assert (Hle : forall i, nth i [false; true; true] false = true ->
                          nth i [true; true; true] false = true).
  { intros [|[|[|i]]]; simpl; intros H; try reflexivity; exact H. }
  assert (Hd : dron_detectado 2 [false; true; true] = true) by reflexivity.
  split; [exact Hle |]. split; [exact Hd |].
  exact (dron_detectado_monotone 2 _ _ Hle Hd).
Defined.



(** ** The loader *)


(** ** Every way a run can end *)

Section Outcomes.

Local Open Scope string_scope.

Variable fs : FileSystem.

Ltac exec :=
  cbn [bind assign ret negb orb andb print sys_exit
       globals trace stdout Py.truthy
       with_stats without_band
       baseline datafile ksigma freq_min freq_max n_consec stats].

Ltac facts df key Hkey :=
  let c := fresh "c" in
  let E := fresh "E" in
  let s := fresh "s" in
  let Hs := fresh "Hs" in
  let T := fresh "T" in
  destruct (buscar_col df key) as [c|] eqn:E;
  [ destruct (buscar_col_column _ _ E) as [s Hs];
    pose proof (buscar_col_truthy _ Hkey E) as T
  | ].

Ltac rew :=
  repeat match goal with
         | H : buscar_col _ _ = _ |- _ => rewrite H
         | H : Py.truthy _ = true |- _ => rewrite H
         | H : Pd.column _ _ = Some _ |- _ => rewrite H
         end.

(** The state a run stops in when a table has no PFD column. *)
Lemma run_no_pfd_state (a : Args) (fb fd : File) :
  fs (baseline a) = Some fb -> fs (datafile a) = Some fd ->
  buscar_col (table fb) "Power Flux Density" = None \/
  buscar_col (table fd) "Power Flux Density" = None ->
  run fs a =
  (Exit 1,
   mkState (loads (baseline a) fb ++ loads (datafile a) fd)%list
           [ErrNoPFD]
           [("freq_data", of_label (buscar_col (table fd) "Frequency"));
            ("pow_data", of_label (buscar_col (table fd) "Total Spectrum Power"));
            ("pow_base", of_label (buscar_col (table fb) "Total Spectrum Power"));
            ("pfd_data", of_label (buscar_col (table fd) "Power Flux Density"));
            ("pfd_base", of_label (buscar_col (table fb) "Power Flux Density"));
            ("df_data", VFrame (table fd));
            ("df_base", VFrame (table fb))]).
Proof.
  intros Hb Hd Hno. unfold run, script.
  erewrite bind_ok by (apply leer_csv_run; exact Hb). exec.
  erewrite bind_ok by (apply leer_csv_run; exact Hd). exec.
  destruct (buscar_col (table fb) "Power Flux Density") as [cb|] eqn:Ecb;
    [rewrite (buscar_col_truthy _ pfd_key_nonempty Ecb) |];
    (destruct (buscar_col (table fd) "Power Flux Density") as [cd|] eqn:Ecd;
     [rewrite (buscar_col_truthy _ pfd_key_nonempty Ecd) |]);
    exec;
    try (destruct Hno; discriminate);
    reflexivity.
Qed.

(** Past the configuration checks, the trace and the namespace do not
    depend on [--stats]; without it the run prints two lines. *)
Lemma run_stats_free (a : Args) (fb fd : File) (cb cd : string) :
  Loaded fs a fb fd cb cd ->
  exists (g : list (string * value)) (verdict : bool),
    (forall b, exists out,
       run fs (with_stats b a) =
       (Ok tt, mkState (loads (baseline a) fb ++ loads (datafile a) fd)%list out g)) /\
    run fs (with_stats false a) =
    (Ok tt, mkState (loads (baseline a) fb ++ loads (datafile a) fd)%list
                    [HdrResultado; if verdict then DronDetectado else SinDron]
                    g) /\
    var g "dron_detectado" = Some (VBool verdict).
Proof.
  intros [Hfb [Hfd [Hcb Hcd]]].
  destruct (buscar_col_column _ _ Hcb) as [pfd_b Hpb].
  destruct (buscar_col_column _ _ Hcd) as [pfd_d Hpd].
  pose proof (buscar_col_truthy _ pfd_key_nonempty Hcb) as Tcb.
  pose proof (buscar_col_truthy _ pfd_key_nonempty Hcd) as Tcd.
  facts (table fb) "Total Spectrum Power" pow_key_nonempty;
    facts (table fd) "Total Spectrum Power" pow_key_nonempty;
    facts (table fd) "Frequency" freq_key_nonempty;
    destruct (freq_min a) as [fmin|] eqn:Emin;
    destruct (freq_max a) as [fmax|] eqn:Emax;
    destruct (n_consec a >? 1)%Z eqn:En;
    (eexists; eexists; split; [intros b; destruct b; eexists | split]);
    try (unfold run, script, getitem; exec;
         erewrite bind_ok by (apply leer_csv_run; exact Hfb); exec;
         erewrite bind_ok by (apply leer_csv_run; exact Hfd);
         rewrite ?Emin, ?Emax, ?En; rew; exec; rew; exec; rew; exec);
    reflexivity.
Qed.

End Outcomes.

Section RunFacts.

Local Open Scope string_scope.

Variable fs : FileSystem.

Lemma with_stats_same (a : Args) : with_stats (stats a) a = a.
Proof. now destruct a. Qed.

Lemma Loaded_with_stats (a : Args) (b : bool) (fb fd : File) (cb cd : string) :
  Loaded fs a fb fd cb cd -> Loaded fs (with_stats b a) fb fd cb cd.
Proof. intros H. exact H. Qed.

Lemma Loaded_without_band (a : Args) (fb fd : File) (cb cd : string) :
  Loaded fs a fb fd cb cd -> Loaded fs (without_band a) fb fd cb cd.
Proof. intros H. exact H. Qed.

(** Either the run is stopped by a configuration error, or it is
    [Loaded]. *)
Lemma loaded_or_fatal (a : Args) :
  (exists fb fd cb cd, Loaded fs a fb fd cb cd) \/
  fs (baseline a) = None \/
  (exists fb, fs (baseline a) = Some fb /\ fs (datafile a) = None) \/
  (exists fb fd,
     fs (baseline a) = Some fb /\ fs (datafile a) = Some fd /\
     (buscar_col (table fb) "Power Flux Density" = None \/
      buscar_col (table fd) "Power Flux Density" = None)).
Proof.
  destruct (fs (baseline a)) as [fb|] eqn:Eb; [| now right; left].
  destruct (fs (datafile a)) as [fd|] eqn:Ed;
    [| right; right; left; now exists fb].
  destruct (buscar_col (table fb) "Power Flux Density") as [cb|] eqn:Ecb;
    [| right; right; right; exists fb, fd; auto].
  destruct (buscar_col (table fd) "Power Flux Density") as [cd|] eqn:Ecd;
    [| right; right; right; exists fb, fd; auto].
  left. exists fb, fd, cb, cd. now repeat split.
Qed.

(** A true row of the instantaneous mask is a row above the PFD
    threshold and in band. *)
Lemma instant_row_pfd (a : Args) (df_base df_data : DataFrame)
      (g : string -> option value)
      (pfd : Series) (thr : float64) (band mask : list bool) (i : nat) :
  PowerFacts a df_base df_data g
             (Pd.mask_and (Pd.gt_scalar pfd thr) band) mask ->
  nth i mask false = true ->
  F64.gt (nth i pfd F64.nan) thr = true /\ nth i band false = true.
Proof.
  intros [c c' pow_b pow_d _ _ _ _ _ -> | _ _ ->];
    rewrite ?nth_mask_and, nth_gt_scalar, ?andb_true_iff; tauto.
Qed.

End RunFacts.



(** Without [--stats], a run that passes the configuration checks
    prints exactly two lines: the result header, then the verdict it
    bound to [dron_detectado]. *)
Theorem quiet_run_output
        (fs : FileSystem) (a : Args) (fb fd : File) (cb cd : string) :
  Loaded fs a fb fd cb cd ->
  stats a = false ->
  exists verdict : bool,
    global fs a "dron_detectado" = Some (VBool verdict) /\
    stdout (snd (run fs a)) =
      [HdrResultado; if verdict then DronDetectado else SinDron].
Proof.
  intros HL Hst. destruct (run_stats_free HL) as [g [v [_ [Hrun Hv]]]].
  rewrite <- Hst, with_stats_same in Hrun.
  exists v. unfold global. rewrite Hrun. now split.
Qed.

Lemma quiet_run_output_witness :
  Loaded Sample.fs (Sample.args "baseline.csv" "data.csv")
         (mkFile true Sample.base) (mkFile false Sample.data)
         "Power Flux Density (dBm/m2)" "power flux density" /\
  stats (Sample.args "baseline.csv" "data.csv") = false /\
  exists verdict : bool,
    global Sample.fs (Sample.args "baseline.csv" "data.csv") "dron_detectado"
    = Some (VBool verdict) /\
    stdout (snd (run Sample.fs (Sample.args "baseline.csv" "data.csv"))) =
      [HdrResultado; if verdict then DronDetectado else SinDron].
Proof.
  assert (HL : Loaded Sample.fs (Sample.args "baseline.csv" "data.csv")
                      (mkFile true Sample.base) (mkFile false Sample.data)
                      "Power Flux Density (dBm/m2)" "power flux density")
    by (repeat split; reflexivity).
  assert (Hst : stats (Sample.args "baseline.csv" "data.csv") = false)
    by reflexivity.
  split; [exact HL |]. split; [exact Hst |].
  exact (quiet_run_output HL Hst).
Defined.

(** A run that passes the configuration checks touches the two given
    files and nothing else: the baseline is tested and read first, then
    the candidate; each is read once, and a second time under Latin-1
    only when its bytes do not decode. *)
Theorem completed_run_trace
        (fs : FileSystem) (a : Args) (fb fd : File) (cb cd : string) :
  Loaded fs a fb fd cb cd ->
  trace (snd (run fs a)) =
    Stat (baseline a) :: ReadCsv (baseline a) Utf8 ::
    (if decodes_utf8 fb then [] else [ReadCsv (baseline a) Latin1]) ++
    Stat (datafile a) :: ReadCsv (datafile a) Utf8 ::
    (if decodes_utf8 fd then [] else [ReadCsv (datafile a) Latin1]).
Proof.
  intros [Hfb [Hfd [Hcb Hcd]]].
  destruct (run_completes _ _ Hfb Hfd Hcb Hcd) as [st [Hrun [Htr _]]].
  rewrite Hrun. exact Htr.
Qed.

Lemma completed_run_trace_witness :
  Loaded Sample.fs (Sample.args "baseline.csv" "data.csv")
         (mkFile true Sample.base) (mkFile false Sample.data)
         "Power Flux Density (dBm/m2)" "power flux density" /\
  trace (snd (run Sample.fs (Sample.args "baseline.csv" "data.csv"))) =
    [Stat "baseline.csv"; ReadCsv "baseline.csv" Utf8;
     Stat "data.csv"; ReadCsv "data.csv" Utf8; ReadCsv "data.csv" Latin1].
Proof.
  assert (HL : Loaded Sample.fs (Sample.args "baseline.csv" "data.csv")
                      (mkFile true Sample.base) (mkFile false Sample.data)
                      "Power Flux Density (dBm/m2)" "power flux density")
    by (repeat split; reflexivity).
  split; [exact HL |]. exact (completed_run_trace HL).
Defined.



(** ** What the filters can and cannot do *)

(** Dropping the band filter can only add detections: a drone reported
    with [--freq-min] and [--freq-max] is reported without them, on the
    same files and with the other options unchanged. *)
Theorem band_never_adds_detection
        (fs : FileSystem) (a : Args) (fb fd : File) (cb cd : string) :
  Loaded fs a fb fd cb cd ->
  global fs a "dron_detectado" = Some (VBool true) ->
  global fs (without_band a) "dron_detectado" = Some (VBool true).
Proof.
  intros HL Hdet.
  destruct (loaded_completed HL) as [_ Hc].
  destruct (loaded_completed (Loaded_without_band HL)) as [_ Hc'].
  destruct Hc as [pfd_b pfd_d band mask Hb Hd _ _ _ Hpow _ Hdd _].
  destruct Hc' as [pfd_b' pfd_d' band' mask' Hb' Hd' _ _ Hband' Hpow' _ Hdd' _].
  assert (pfd_b' = pfd_b) as -> by congruence.
  assert (pfd_d' = pfd_d) as -> by congruence.
  rewrite Hdd in Hdet. injection Hdet as Hdet. rewrite Hdd'.
  do 2 f_equal. cbn [without_band n_consec ksigma] in *.
  assert (Hband1 : band' = Pd.ones (Pd.len (table fd))).
  { destruct Hband' as [c fmin fmax freq _ Hmin _ _ _ | _ H]; [discriminate | exact H]. }
  subst band'.
  apply verdict_rows in Hdet. apply verdict_rows.
  destruct Hdet as [i [Hi Hrows]]. exists i. split; [exact Hi |].
  intros j Hj. specialize (Hrows j Hj).
  set (r := i + 1 - Z.to_nat (Z.max 1 (n_consec a)) + j) in *.
  destruct (@instant_row_pfd _ _ _ _ _ _ _ _ _ Hpow Hrows) as [Hgt _].
  assert (Hr : r < Pd.len (table fd)).
  { rewrite <- (column_length _ _ Hd).
    destruct (Nat.lt_ge_cases r (List.length pfd_d)) as [H | H]; [exact H |].
    rewrite nth_overflow in Hgt by exact H. discriminate. }
  destruct Hpow as [c c' pow_b pow_d Hc Hc' Hpb Hpd _ -> | Hno _ ->];
    destruct Hpow' as [e e' pow_b' pow_d' He He' Hpb' Hpd' _ -> | Hno' _ ->].
  - assert (e = c) as -> by congruence. assert (e' = c') as -> by congruence.
    assert (pow_b' = pow_b) as -> by congruence.
    assert (pow_d' = pow_d) as -> by congruence.
    rewrite !nth_mask_and in *. rewrite !andb_true_iff in *.
    destruct Hrows as [[H1 _] H3]. repeat split; trivial.
    now apply nth_repeat_lt.
  - destruct Hno'; congruence.
  - destruct Hno; congruence.
  - rewrite !nth_mask_and in *. rewrite !andb_true_iff in *.
    destruct Hrows as [H1 _]. split; [exact H1 | now apply nth_repeat_lt].
Qed.

Lemma band_never_adds_detection_witness :
  Loaded Sample.fs (Sample.args "baseline.csv" "data.csv")
         (mkFile true Sample.base) (mkFile false Sample.data)
         "Power Flux Density (dBm/m2)" "power flux density" /\
  global Sample.fs (Sample.args "baseline.csv" "data.csv") "dron_detectado"
  = Some (VBool true) /\
  global Sample.fs (without_band (Sample.args "baseline.csv" "data.csv"))
         "dron_detectado"
  = Some (VBool true).
Proof.
  assert (HL : Loaded Sample.fs (Sample.args "baseline.csv" "data.csv")
                      (mkFile true Sample.base) (mkFile false Sample.data)
                      "Power Flux Density (dBm/m2)" "power flux density")
    by (repeat split; reflexivity).
  assert (Hd : global Sample.fs (Sample.args "baseline.csv" "data.csv")
                      "dron_detectado" = Some (VBool true))
    by (vm_compute; reflexivity).
  split; [exact HL |]. split; [exact Hd |].
  exact (band_never_adds_detection HL Hd).
Defined.

(** A detection always rests on the PFD column: when a drone is
    reported, some stretch of [max 1 n_consec] consecutive candidate
    rows has every PFD value strictly above the PFD threshold (and every
    row in band).  The power criterion can veto a detection, never
    create one. *)
Theorem detection_rests_on_pfd
        (fs : FileSystem) (a : Args) (fb fd : File) (cb cd : string) :
  Loaded fs a fb fd cb cd ->
  global fs a "dron_detectado" = Some (VBool true) ->
  exists pfd thr band i,
    Pd.column (table fd) cd = Some pfd /\
    global fs a "thr_pfd" = Some (VFloat thr) /\
    global fs a "band_mask" = Some (VMask band) /\
    Z.to_nat (Z.max 1 (n_consec a)) <= i + 1 <= Pd.len (table fd) /\
    forall j, j < Z.to_nat (Z.max 1 (n_consec a)) ->
      SFcompare (nth (i + 1 - Z.to_nat (Z.max 1 (n_consec a)) + j) pfd F64.nan)
                thr = Some Gt /\
      nth (i + 1 - Z.to_nat (Z.max 1 (n_consec a)) + j) band false = true.
Proof.
  intros HL Hdet. destruct (loaded_completed HL) as [_ Hc].
  destruct Hc as [pfd_b pfd_d band mask Hb Hd Hthr Hbm _ Hpow _ Hdd _].
  rewrite Hdd in Hdet. injection Hdet as Hdet.
  apply verdict_rows in Hdet. destruct Hdet as [i [Hi Hrows]].
  exists pfd_d, (umbral (Pd.mean pfd_b) (Pd.std pfd_b) (ksigma a)), band, i.
  repeat (split; [assumption |]).
  assert (Hall : forall j, j < Z.to_nat (Z.max 1 (n_consec a)) ->
            F64.gt (nth (i + 1 - Z.to_nat (Z.max 1 (n_consec a)) + j) pfd_d F64.nan)
                   (umbral (Pd.mean pfd_b) (Pd.std pfd_b) (ksigma a)) = true /\
            nth (i + 1 - Z.to_nat (Z.max 1 (n_consec a)) + j) band false = true).
  { intros j Hj. exact (@instant_row_pfd _ _ _ _ _ _ _ _ _ Hpow (Hrows j Hj)). }
  split.
  - split; [exact Hi |].
    assert (Hlast : Z.to_nat (Z.max 1 (n_consec a)) - 1
                    < Z.to_nat (Z.max 1 (n_consec a))) by lia.
    destruct (Hall _ Hlast) as [Hgt _].
    replace (i + 1 - Z.to_nat (Z.max 1 (n_consec a))
             + (Z.to_nat (Z.max 1 (n_consec a)) - 1)) with i in Hgt by lia.
    rewrite <- (column_length _ _ Hd).
    destruct (Nat.lt_ge_cases i (List.length pfd_d)) as [H | H]; [lia |].
    rewrite nth_overflow in Hgt by exact H. discriminate.
  - intros j Hj. destruct (Hall j Hj) as [Hgt Hbd].
    split; [now apply gt_iff | exact Hbd].
Qed.

Lemma detection_rests_on_pfd_witness :
  Loaded Sample.fs (Sample.args "baseline.csv" "data.csv")
         (mkFile true Sample.base) (mkFile false Sample.data)
         "Power Flux Density (dBm/m2)" "power flux density" /\
  global Sample.fs (Sample.args "baseline.csv" "data.csv") "dron_detectado"
  = Some (VBool true) /\
  exists thr, global Sample.fs (Sample.args "baseline.csv" "data.csv") "thr_pfd"
              = Some (VFloat thr).
Proof.
  assert (HL : Loaded Sample.fs (Sample.args "baseline.csv" "data.csv")
                      (mkFile true Sample.base) (mkFile false Sample.data)
                      "Power Flux Density (dBm/m2)" "power flux density")
    by (repeat split; reflexivity).
  assert (Hd : global Sample.fs (Sample.args "baseline.csv" "data.csv")
                      "dron_detectado" = Some (VBool true))
    by (vm_compute; reflexivity).
  split; [exact HL |]. split; [exact Hd |].
  destruct (detection_rests_on_pfd HL Hd) as [pfd [thr [band [i [_ [Hthr _]]]]]].
  exists thr. exact Hthr.
Defined.

(** ** Missing values and degenerate bounds *)

(** A candidate row whose PFD cell is missing (NaN) is never a true row
    of the instantaneous mask; nor is a row whose power cell is missing
    once the power criterion is enabled, nor a row whose frequency cell
    is missing once the band filter is active. *)
Theorem nan_rows_never_detect
        (fs : FileSystem) (a : Args) (fb fd : File) (cb cd : string) :
  Loaded fs a fb fd cb cd ->
  exists pfd mask,
    Pd.column (table fd) cd = Some pfd /\
    global fs a "instant_mask" = Some (VMask mask) /\
    (forall i, F64.isnan (nth i pfd F64.nan) = true ->
               nth i mask false = false) /\
    (forall c pow t i,
       buscar_col (table fd) "Total Spectrum Power" = Some c ->
       Pd.column (table fd) c = Some pow ->
       global fs a "thr_power" = Some (VFloat t) ->
       F64.isnan (nth i pow F64.nan) = true ->
       nth i mask false = false) /\
    (forall c fmin fmax freq i,
       buscar_col (table fd) "Frequency" = Some c ->
       freq_min a = Some fmin -> freq_max a = Some fmax ->
       Pd.column (table fd) c = Some freq ->
       F64.isnan (nth i freq F64.nan) = true ->
       nth i mask false = false).
Proof.
  intros HL. destruct (loaded_completed HL) as [_ Hc].
  destruct Hc as [pfd_b pfd_d band mask Hb Hd Hthr Hbm Hband Hpow Him _ _].
  exists pfd_d, mask. repeat (split; [assumption |]).
  assert (Hnan : forall x, F64.isnan x = true -> x = F64.nan)
    by (intros [| | |]; simpl; intros H; try discriminate; reflexivity).
  split; [| split].
  - intros i Hi. apply Hnan in Hi.
    destruct (nth i mask false) eqn:E; [| reflexivity].
    destruct (@instant_row_pfd _ _ _ _ _ _ _ _ _ Hpow E) as [Hgt _].
    rewrite Hi in Hgt. discriminate.
  - intros c pow t i Hc Hp Ht Hi. apply Hnan in Hi.
    destruct Hpow as [e e' pow_b pow_d He He' Hpb Hpd Hg -> | Hno Hg _].
    + assert (e' = c) as -> by congruence.
      assert (pow_d = pow) as -> by congruence.
      rewrite nth_mask_and, nth_gt_scalar, Hi. apply andb_false_r.
    + congruence.
  - intros c fmin fmax freq i Hc Hmin Hmax Hf Hi. apply Hnan in Hi.
    destruct (nth i mask false) eqn:E; [| reflexivity].
    destruct (@instant_row_pfd _ _ _ _ _ _ _ _ _ Hpow E) as [_ Hbd].
    destruct Hband as [c' fmin' fmax' freq' Hc' Hmin' Hmax' Hf' -> | Hoff _].
    + assert (c' = c) as -> by congruence.
      assert (freq' = freq) as -> by congruence.
      rewrite nth_band_filter, Hi, le_nan_r in Hbd. discriminate.
    + destruct Hoff as [H | [H | H]]; congruence.
Qed.

Lemma nan_rows_never_detect_witness :
  Loaded Sample.fs (Sample.args "baseline.csv" "data.csv")
         (mkFile true Sample.base) (mkFile false Sample.data)
         "Power Flux Density (dBm/m2)" "power flux density" /\
  exists mask,
    global Sample.fs (Sample.args "baseline.csv" "data.csv") "instant_mask"
    = Some (VMask mask).
Proof.
  assert (HL : Loaded Sample.fs (Sample.args "baseline.csv" "data.csv")
                      (mkFile true Sample.base) (mkFile false Sample.data)
                      "Power Flux Density (dBm/m2)" "power flux density")
    by (repeat split; reflexivity).
  split; [exact HL |].
  destruct (nan_rows_never_detect HL) as [pfd [mask [_ [Hm _]]]].
  exists mask. exact Hm.
Defined.

Section Order.

(** The binary64 order is transitive. *)
Lemma SFleb_trans (x y z : float64) :
  SFleb x y = true -> SFleb y z = true -> SFleb x z = true.
Proof.
  unfold SFleb.
  destruct x as [sx|sx| |sx mx ex], y as [sy|sy| |sy my ey],
           z as [sz|sz| |sz mz ez];
    simpl; try discriminate; try reflexivity;
    try (destruct sx; simpl; try discriminate; try reflexivity);
    try (destruct sy; simpl; try discriminate; try reflexivity);
    try (destruct sz; simpl; try discriminate; try reflexivity).
  all: change (PosDef.Pos.compare_cont Eq) with Pos.compare.
  all: destruct (Z.compare_spec ex ey), (Z.compare_spec ey ez),
                (Z.compare_spec ex ez);
    try discriminate; try reflexivity; try lia; subst.
  all: destruct (Pos.compare_spec mx my), (Pos.compare_spec my mz),
                (Pos.compare_spec mx mz);
    simpl; try discriminate; try reflexivity; try lia.
Qed.

(** Bounds given in the wrong order, or a bound that is NaN, let no
    frequency through. *)
Lemma band_filter_empty (freq : Series) (fmin fmax : float64) (i : nat) :
  F64.gt fmin fmax = true \/ F64.isnan fmin = true \/ F64.isnan fmax = true ->
  nth i (band_filter freq fmin fmax) false = false.
Proof.
  intros Hbad. rewrite nth_band_filter.
  destruct (F64.le fmin (nth i freq F64.nan)) eqn:E1; [| reflexivity].
  destruct (F64.le (nth i freq F64.nan) fmax) eqn:E2; [| reflexivity].
  exfalso. pose proof (SFleb_trans _ _ _ E1 E2) as Ht.
  destruct Hbad as [Hgt | [Hn | Hn]].
  - apply gt_iff in Hgt. unfold SFleb in Ht. rewrite Hgt in Ht. discriminate.
  - destruct fmin; try discriminate.
  - destruct fmax; try discriminate. now rewrite le_nan_r in E2.
Qed.

End Order.

(** With an active band filter whose bounds are in the wrong order
    ([freq_min > freq_max]) or not numbers, the filter lets no row
    through: the run goes on without error and reports no drone,
    whatever the candidate holds. *)
Theorem empty_band_never_detects
        (fs : FileSystem) (a : Args) (fb fd : File) (cb cd c : string)
        (fmin fmax : float64) :
  Loaded fs a fb fd cb cd ->
  buscar_col (table fd) "Frequency" = Some c ->
  freq_min a = Some fmin -> freq_max a = Some fmax ->
  F64.gt fmin fmax = true \/ F64.isnan fmin = true \/ F64.isnan fmax = true ->
  outcome fs a = Ok tt /\
  (exists band, global fs a "band_mask" = Some (VMask band) /\
                forall i, nth i band false = false) /\
  global fs a "dron_detectado" = Some (VBool false).
Proof.
  intros HL Hc Hmin Hmax Hbad. destruct (loaded_completed HL) as [Hok Hcomp].
  destruct Hcomp as [pfd_b pfd_d band mask Hb Hd Hthr Hbm Hband Hpow Him Hdd _].
  assert (Hnone : forall i, nth i band false = false).
  { intros i.
    destruct Hband as [c' fmin' fmax' freq Hc' Hmin' Hmax' Hf -> | Hoff _].
    - assert (fmin' = fmin) as -> by congruence.
      assert (fmax' = fmax) as -> by congruence.
      now apply band_filter_empty.
    - destruct Hoff as [H | [H | H]]; congruence. }
  split; [exact Hok |]. split; [now exists band |].
  rewrite Hdd. do 2 f_equal. apply dron_detectado_all_false. intros i.
  destruct (nth i mask false) eqn:E; [| reflexivity].
  destruct (@instant_row_pfd _ _ _ _ _ _ _ _ _ Hpow E) as [_ Hbd].
  now rewrite Hnone in Hbd.
Qed.

Lemma empty_band_never_detects_witness :
  Loaded Sample.fs
         (mkArgs "baseline.csv" "data.csv" (F64.of_Z 3)
                 (Some (F64.of_Z 2500)) (Some (F64.of_Z 2400)) 1 false)
         (mkFile true Sample.base) (mkFile false Sample.data)
         "Power Flux Density (dBm/m2)" "power flux density" /\
  F64.gt (F64.of_Z 2500) (F64.of_Z 2400) = true /\
  global Sample.fs
         (mkArgs "baseline.csv" "data.csv" (F64.of_Z 3)
                 (Some (F64.of_Z 2500)) (Some (F64.of_Z 2400)) 1 false)
         "dron_detectado"
  = Some (VBool false).
Proof.
  assert (HL : Loaded Sample.fs
                 (mkArgs "baseline.csv" "data.csv" (F64.of_Z 3)
                         (Some (F64.of_Z 2500)) (Some (F64.of_Z 2400)) 1 false)
                 (mkFile true Sample.base) (mkFile false Sample.data)
                 "Power Flux Density (dBm/m2)" "power flux density")
    by (repeat split; reflexivity).
  assert (Hgt : F64.gt (F64.of_Z 2500) (F64.of_Z 2400) = true)
    by (vm_compute; reflexivity).
  split; [exact HL |]. split; [exact Hgt |].
  exact (proj2 (proj2 (@empty_band_never_detects
                         Sample.fs _ _ _ _ _ "Frequency (MHz)" _ _ HL
                         eq_refl eq_refl eq_refl (or_introl Hgt)))).
Defined.


(** ** The first script *)

Section FirstScript.

Local Open Scope string_scope.

Variable fs : FileSystem.

Lemma v1_bind_ok {A B} (m : V1.M A) (k : A -> V1.M B)
      (st st' : V1.State) (x : A) :
  m st = (Ok x, st') -> V1.bind m k st = k x st'.
Proof. intros H. unfold V1.bind. now rewrite H. Qed.

Lemma v1_bind_exit {A B} (m : V1.M A) (k : A -> V1.M B)
      (st st' : V1.State) (c : Z) :
  m st = (Exit c, st') -> V1.bind m k st = (Exit c, st').
Proof. intros H. unfold V1.bind. now rewrite H. Qed.

Lemma v1_leer_csv_run (ruta : string) (f : File) (st : V1.State) :
  fs ruta = Some f ->
  V1.leer_csv fs ruta st =
  (Ok (table f),
   V1.mkState (V1.trace st ++ loads ruta f) (V1.stdout st) (V1.globals st)).
Proof.
  intros Hf.
  unfold V1.leer_csv, V1.read_csv, V1.try_except, V1.bind, V1.emit, loads.
  rewrite Hf. destruct (decodes_utf8 f); simpl; unfold V1.ret.
  - now rewrite <- app_assoc.
  - now rewrite <- !app_assoc.
Qed.

Lemma v1_leer_csv_missing (ruta : string) (st : V1.State) :
  fs ruta = None ->
  V1.leer_csv fs ruta st =
  (Exit 1, V1.mkState (V1.trace st ++ [Stat ruta])
                      (V1.stdout st ++ [V1.ErrNoSeEncontro ruta])
                      (V1.globals st)).
Proof.
  intros Hf. unfold V1.leer_csv, V1.bind, V1.emit, V1.print, V1.sys_exit.
  now rewrite Hf.
Qed.

Ltac v1_exec :=
  cbn [V1.bind V1.assign V1.ret negb orb andb V1.print V1.sys_exit
       V1.globals V1.trace V1.stdout Py.truthy
       V1.baseline V1.datafile V1.stats].

Ltac v1_facts df key Hkey :=
  let c := fresh "c" in
  let E := fresh "E" in
  let s := fresh "s" in
  let Hs := fresh "Hs" in
  let T := fresh "T" in
  destruct (buscar_col df key) as [c|] eqn:E;
  [ destruct (buscar_col_column _ _ E) as [s Hs];
    pose proof (buscar_col_truthy _ Hkey E) as T
  | ].

Ltac v1_rew :=
  repeat match goal with
         | H : buscar_col _ _ = _ |- _ => rewrite H
         | H : Py.truthy _ = true |- _ => rewrite H
         | H : Pd.column _ _ = Some _ |- _ => rewrite H
         end.

Lemma v1_run_baseline_missing (a : V1.Args) :
  fs (V1.baseline a) = None ->
  V1.run fs a =
  (Exit 1, V1.mkState [Stat (V1.baseline a)]
                      [V1.ErrNoSeEncontro (V1.baseline a)] []).
Proof.
  intros Hb. unfold V1.run, V1.script.
  erewrite v1_bind_exit by (apply v1_leer_csv_missing; exact Hb).
  reflexivity.
Qed.

Lemma v1_run_datafile_missing (a : V1.Args) (fb : File) :
  fs (V1.baseline a) = Some fb -> fs (V1.datafile a) = None ->
  V1.run fs a =
  (Exit 1, V1.mkState (loads (V1.baseline a) fb ++ [Stat (V1.datafile a)])
                      [V1.ErrNoSeEncontro (V1.datafile a)]
                      [("df_base", VFrame (table fb))]).
Proof.
  intros Hb Hd. unfold V1.run, V1.script.
  erewrite v1_bind_ok by (apply v1_leer_csv_run; exact Hb). v1_exec.
  erewrite v1_bind_exit by (apply v1_leer_csv_missing; exact Hd).
  reflexivity.
Qed.

Lemma v1_run_no_pfd (a : V1.Args) (fb fd : File) :
  fs (V1.baseline a) = Some fb -> fs (V1.datafile a) = Some fd ->
  buscar_col (table fb) "Power Flux Density" = None \/
  buscar_col (table fd) "Power Flux Density" = None ->
  V1.run fs a =
  (Exit 1,
   V1.mkState
     (loads (V1.baseline a) fb ++ loads (V1.datafile a) fd)%list
     [V1.ErrNoColumnaPFD]
     [("pow_col_data", of_label (buscar_col (table fd) "Total Spectrum Power"));
      ("pow_col_base", of_label (buscar_col (table fb) "Total Spectrum Power"));
      ("pfd_col_data", of_label (buscar_col (table fd) "Power Flux Density"));
      ("pfd_col_base", of_label (buscar_col (table fb) "Power Flux Density"));
      ("df_data", VFrame (table fd));
      ("df_base", VFrame (table fb))]).
Proof.
  intros Hb Hd Hno. unfold V1.run, V1.script.
  change V1.buscar_columna with buscar_col.
  erewrite v1_bind_ok by (apply v1_leer_csv_run; exact Hb). v1_exec.
  erewrite v1_bind_ok by (apply v1_leer_csv_run; exact Hd). v1_exec.
  destruct (buscar_col (table fb) "Power Flux Density") as [cb|] eqn:Ecb;
    [rewrite (buscar_col_truthy _ pfd_key_nonempty Ecb) |];
    (destruct (buscar_col (table fd) "Power Flux Density") as [cd|] eqn:Ecd;
     [rewrite (buscar_col_truthy _ pfd_key_nonempty Ecd) |]);
    v1_exec;
    try (destruct Hno; discriminate);
    reflexivity.
Qed.

(** The bindings of a run of the first script that went through. *)
Lemma v1_run_completes (a : V1.Args) (fb fd : File) (cb cd : string) :
  fs (V1.baseline a) = Some fb -> fs (V1.datafile a) = Some fd ->
  buscar_col (table fb) "Power Flux Density" = Some cb ->
  buscar_col (table fd) "Power Flux Density" = Some cd ->
  exists pfd_b pfd_d mask st,
    Pd.column (table fb) cb = Some pfd_b /\
    Pd.column (table fd) cd = Some pfd_d /\
    V1.run fs a = (Ok tt, st) /\
    V1.trace st = (loads (V1.baseline a) fb ++ loads (V1.datafile a) fd)%list /\
    var (V1.globals st) "umbral_pfd" =
      Some (VFloat (umbral (Pd.mean pfd_b) (Pd.std pfd_b) (F64.of_Z 3))) /\
    match buscar_col (table fb) "Total Spectrum Power",
          buscar_col (table fd) "Total Spectrum Power" with
    | Some c, Some c' =>
        exists pow_b pow_d,
          Pd.column (table fb) c = Some pow_b /\
          Pd.column (table fd) c' = Some pow_d /\
          var (V1.globals st) "umbral_power" =
            Some (VFloat (umbral (Pd.mean pow_b) (Pd.std pow_b) (F64.of_Z 3))) /\
          mask =
            Pd.mask_and
              (Pd.gt_scalar pfd_d
                 (umbral (Pd.mean pfd_b) (Pd.std pfd_b) (F64.of_Z 3)))
              (Pd.gt_scalar pow_d
                 (umbral (Pd.mean pow_b) (Pd.std pow_b) (F64.of_Z 3)))
    | _, _ =>
        var (V1.globals st) "umbral_power" = Some VNone /\
        mask = Pd.gt_scalar pfd_d
                 (umbral (Pd.mean pfd_b) (Pd.std pfd_b) (F64.of_Z 3))
    end /\
    var (V1.globals st) "mask" = Some (VMask mask) /\
    var (V1.globals st) "dron_detectado" = Some (VBool (Pd.any mask)) /\
    last (V1.stdout st) V1.HdrResultado =
      (if Pd.any mask then V1.DronDetectado else V1.SinDron).
Proof.
  intros Hfb Hfd Hcb Hcd.
  destruct (buscar_col_column _ _ Hcb) as [pfd_b Hpb].
  destruct (buscar_col_column _ _ Hcd) as [pfd_d Hpd].
  pose proof (buscar_col_truthy _ pfd_key_nonempty Hcb) as Tcb.
  pose proof (buscar_col_truthy _ pfd_key_nonempty Hcd) as Tcd.
  exists pfd_b, pfd_d.
  v1_facts (table fb) "Total Spectrum Power" pow_key_nonempty;
    v1_facts (table fd) "Total Spectrum Power" pow_key_nonempty;
    destruct (V1.stats a) eqn:Est;
    (eexists; eexists; split; [exact Hpb |]; split; [exact Hpd |]);
    (split;
     [ unfold V1.run, V1.script, V1.getitem;
       change V1.buscar_columna with buscar_col;
       erewrite v1_bind_ok by (apply v1_leer_csv_run; exact Hfb); v1_exec;
       erewrite v1_bind_ok by (apply v1_leer_csv_run; exact Hfd);
       rewrite ?Est; v1_rew; v1_exec; v1_rew; v1_exec; v1_rew; v1_exec;
       reflexivity
     | ]);
    (split; [reflexivity |]); (split; [reflexivity |]);
    (split; [| split; [reflexivity | split; reflexivity]]);
    try (eexists; eexists; split; [eassumption |]; split; [eassumption |];
         split; reflexivity);
    (split; reflexivity).
Qed.

End FirstScript.

Lemma mask_and_ones (m : list bool) (n : nat) :
  List.length m = n -> Pd.mask_and m (Pd.ones n) = m.
Proof.
  revert n. induction m as [|x m IH]; intros [|n] H; simpl in *;
    try reflexivity; try discriminate.
  rewrite andb_true_r. f_equal. apply IH. now injection H.
Qed.

(** [script.py] is [script2.py] run with its defaults.  On the same
    files, the first script and the second script called with the two
    paths alone ([-k 3.0], no band, [--n-consec 1]) end the same way,
    make the same accesses to the files, and compute the same PFD
    threshold, the same power threshold, the same mask and the same
    verdict. *)
Theorem first_script_is_default_run
        (fs : FileSystem) (b d : string) (st : bool) :
  V1.outcome fs (V1.mkArgs b d st) = outcome fs (defaults b d st) /\
  V1.trace (snd (V1.run fs (V1.mkArgs b d st)))
  = trace (snd (run fs (defaults b d st))) /\
  V1.global fs (V1.mkArgs b d st) "umbral_pfd"
  = global fs (defaults b d st) "thr_pfd" /\
  V1.global fs (V1.mkArgs b d st) "umbral_power"
  = global fs (defaults b d st) "thr_power" /\
  V1.global fs (V1.mkArgs b d st) "mask"
  = global fs (defaults b d st) "instant_mask" /\
  V1.global fs (V1.mkArgs b d st) "dron_detectado"
  = global fs (defaults b d st) "dron_detectado".
Proof.
  unfold V1.outcome, V1.global, outcome, global.
  destruct (loaded_or_fatal fs (defaults b d st))
    as [[fb [fd [cb [cd HL]]]] | [Hb | [[fb [Hb Hd]] | [fb [fd [Hb [Hd Hno]]]]]]].
  - destruct HL as [Hfb [Hfd [Hcb Hcd]]].
    destruct (@v1_run_completes fs (V1.mkArgs b d st) fb fd cb cd Hfb Hfd Hcb Hcd)
      as [pfd_b [pfd_d [mask [s1 [Hpb [Hpd [Hrun1 [Htr1 [Hthr1 [Hpow1 [Hm1 [Hd1 _]]]]]]]]]]]].
    destruct (run_completes _ _ Hfb Hfd Hcb Hcd) as [s2 [Hrun2 [Htr2 Hc2]]].
    rewrite Hrun1, Hrun2. cbn [fst snd].
    destruct Hc2 as [pfd_b' pfd_d' band mask' Hpb' Hpd' Hthr2 _ Hband Hpow2 Hm2 Hd2 _].
    assert (pfd_b' = pfd_b) as -> by congruence.
    assert (pfd_d' = pfd_d) as -> by congruence.
    cbn [defaults ksigma n_consec] in *.
    assert (Hb1 : band = Pd.ones (Pd.len (table fd))).
    { destruct Hband as [c fmin fmax freq _ Hmin _ _ _ | _ H];
        [discriminate | exact H]. }
    subst band.
    rewrite (mask_and_ones _ (eq_trans (length_gt_scalar _ _) (column_length _ _ Hpd)))
      in Hpow2.
    assert (Hmask : mask' = mask /\
                    var (V1.globals s1) "umbral_power" = var (globals s2) "thr_power").
    { destruct Hpow2 as [c c' pow_b pow_d Hc Hc' Hpwb Hpwd Hg -> | Hno Hg ->];
        cbn [defaults ksigma] in *.
      - rewrite Hc, Hc' in Hpow1.
        destruct Hpow1 as [pow_b' [pow_d' [Hb' [Hd' [Hg' ->]]]]].
        assert (pow_b' = pow_b) as -> by congruence.
        assert (pow_d' = pow_d) as -> by congruence.
        split; [reflexivity | congruence].
      - destruct (buscar_col (table fb) "Total Spectrum Power") as [c|];
          [destruct (buscar_col (table fd) "Total Spectrum Power") as [c'|] |].
        + destruct Hno; discriminate.
        + destruct Hpow1 as [Hg' ->]. split; [reflexivity | congruence].
        + destruct Hpow1 as [Hg' ->]. split; [reflexivity | congruence]. }
    destruct Hmask as [-> Hpw].
    repeat split; try congruence.
    + rewrite Htr1, Htr2. reflexivity.
    + rewrite Hd1, Hd2. reflexivity.
  - rewrite (@v1_run_baseline_missing fs (V1.mkArgs b d st) Hb).
    rewrite (@run_baseline_missing fs (defaults b d st) Hb).
    repeat split.
  - rewrite (@v1_run_datafile_missing fs (V1.mkArgs b d st) fb Hb Hd).
    rewrite (@run_datafile_missing fs (defaults b d st) fb Hb Hd).
    repeat split.
  - rewrite (@v1_run_no_pfd fs (V1.mkArgs b d st) fb fd Hb Hd Hno).
    rewrite (@run_no_pfd_state fs (defaults b d st) fb fd Hb Hd Hno).
    repeat split.
Qed.



(** The first script on the sample files: a drone is reported, as by
    the second script with its defaults. *)
Example first_script_sample :
  V1.global Sample.fs (V1.mkArgs "baseline.csv" "data.csv" false) "mask"
  = Some (VMask [true; true; true; false]) /\
  V1.global Sample.fs (V1.mkArgs "baseline.csv" "data.csv" false)
            "dron_detectado"
  = Some (VBool true) /\
  V1.stdout (snd (V1.run Sample.fs (V1.mkArgs "baseline.csv" "data.csv" false)))
  = [V1.HdrResultado; V1.DronDetectado].
Proof. repeat split; vm_compute; reflexivity. Qed.

(** ** The report *)

Section Report.

Local Open Scope string_scope.

Variable fs : FileSystem.

Ltac rexec :=
  cbn [bind assign ret negb orb andb print sys_exit
       globals trace stdout Py.truthy flat_map app].

Ltac rfacts df key Hkey :=
  let c := fresh "c" in
  let E := fresh "E" in
  let s := fresh "s" in
  let Hs := fresh "Hs" in
  let T := fresh "T" in
  destruct (buscar_col df key) as [c|] eqn:E;
  [ destruct (buscar_col_column _ _ E) as [s Hs];
    pose proof (buscar_col_truthy _ Hkey E) as T
  | ].

Ltac rrew :=
  repeat match goal with
         | H : buscar_col _ _ = _ |- _ => rewrite H
         | H : Py.truthy _ = true |- _ => rewrite H
         | H : Pd.column _ _ = Some _ |- _ => rewrite H
         end.

(** The lines of a run with [--stats], in closed form. *)
Lemma run_stats_lines (a : Args) (fb fd : File) (cb cd : string) (pfd_b : Series) :
  Loaded fs a fb fd cb cd ->
  stats a = true ->
  Pd.column (table fb) cb = Some pfd_b ->
  exists verdict : bool,
    global fs a "dron_detectado" = Some (VBool verdict) /\
    global fs a "thr_pfd" =
      Some (VFloat (umbral (Pd.mean pfd_b) (Pd.std pfd_b) (ksigma a))) /\
    stdout (snd (run fs a)) =
      ([HdrBaseline;
        StatPfd cb (Pd.mean pfd_b) (Pd.std pfd_b)
                (umbral (Pd.mean pfd_b) (Pd.std pfd_b) (ksigma a))]
       ++ match buscar_col (table fb) "Total Spectrum Power",
                buscar_col (table fd) "Total Spectrum Power" with
          | Some c, Some _ =>
              match Pd.column (table fb) c with
              | Some s =>
                  [StatPow c (Pd.mean s) (Pd.std s)
                           (umbral (Pd.mean s) (Pd.std s) (ksigma a))]
              | None => []
              end
          | _, _ => []
          end
       ++ match freq_min a with
          | Some fmin => [StatBand fmin (freq_max a)]
          | None => []
          end
       ++ [HdrDescribe;
           Describe
             (cd :: match buscar_col (table fd) "Total Spectrum Power" with
                    | Some c => [c]
                    | None => []
                    end
                 ++ match buscar_col (table fd) "Frequency" with
                    | Some c => [c]
                    | None => []
                    end);
           HdrResultado;
           if verdict then DronDetectado else SinDron])%list.
Proof.
  intros [Hfb [Hfd [Hcb Hcd]]] Hst Hpb.
  destruct (buscar_col_column _ _ Hcd) as [pfd_d Hpd].
  pose proof (buscar_col_truthy _ pfd_key_nonempty Hcb) as Tcb.
  pose proof (buscar_col_truthy _ pfd_key_nonempty Hcd) as Tcd.
  unfold global, run, script, getitem.
  erewrite bind_ok by (apply leer_csv_run; exact Hfb). rexec.
  erewrite bind_ok by (apply leer_csv_run; exact Hfd).
  rewrite Hst, Hcb, Hcd, Tcb, Tcd. rexec. rewrite Hpb, Hpd. rexec.
  rfacts (table fb) "Total Spectrum Power" pow_key_nonempty;
    rfacts (table fd) "Total Spectrum Power" pow_key_nonempty;
    rfacts (table fd) "Frequency" freq_key_nonempty;
    destruct (freq_min a) as [fmin|] eqn:Emin;
    destruct (freq_max a) as [fmax|] eqn:Emax;
    destruct (n_consec a >? 1)%Z eqn:En;
    rrew; rexec; rrew; rexec;
    (eexists; split; [reflexivity | split; reflexivity]).
Qed.

End Report.

(** With [--stats], the report of a run that passes the configuration
    checks shows the PFD threshold that the detection used, and it ends
    with the result header and the verdict.  It shows a band line as soon
    as [--freq-min] is given, and only then: also when the band filter is
    not applied, for want of [--freq-max] or of a frequency column. *)
Theorem stats_report
        (fs : FileSystem) (a : Args) (fb fd : File) (cb cd : string) :
  Loaded fs a fb fd cb cd ->
  stats a = true ->
  exists (mu sigma thr : float64) (verdict : bool) (lines : list line),
    global fs a "thr_pfd" = Some (VFloat thr) /\
    global fs a "dron_detectado" = Some (VBool verdict) /\
    stdout (snd (run fs a)) =
      (HdrBaseline :: StatPfd cb mu sigma thr :: lines ++
       [HdrResultado; if verdict then DronDetectado else SinDron])%list /\
    (forall fmin, freq_min a = Some fmin ->
                  In (StatBand fmin (freq_max a)) lines) /\
    (freq_min a = None -> forall x y, ~ In (StatBand x y) lines).
Proof.
  intros HL Hst.
  destruct HL as [Hfb [Hfd [Hcb Hcd]]].
  destruct (buscar_col_column _ _ Hcb) as [pfd_b Hpb].
  destruct (@run_stats_lines fs a fb fd cb cd pfd_b
              (conj Hfb (conj Hfd (conj Hcb Hcd))) Hst Hpb)
    as [v [Hv [Hthr Hout]]].
  exists (Pd.mean pfd_b), (Pd.std pfd_b),
         (umbral (Pd.mean pfd_b) (Pd.std pfd_b) (ksigma a)), v.
  eexists. split; [exact Hthr |]. split; [exact Hv |].
  split.
  - rewrite Hout. cbn [app]. do 2 f_equal.
    rewrite !app_assoc.
    change [HdrDescribe;
            Describe
              (cd :: match buscar_col (table fd) "Total Spectrum Power" with
                     | Some c => [c]
                     | None => []
                     end
                  ++ match buscar_col (table fd) "Frequency" with
                     | Some c => [c]
                     | None => []
                     end);
            HdrResultado;
            if v then DronDetectado else SinDron]
      with ([HdrDescribe;
             Describe
               (cd :: match buscar_col (table fd) "Total Spectrum Power" with
                      | Some c => [c]
                      | None => []
                      end
                   ++ match buscar_col (table fd) "Frequency" with
                      | Some c => [c]
                      | None => []
                      end)]
            ++ [HdrResultado; if v then DronDetectado else SinDron])%list.
    rewrite app_assoc. reflexivity.
  - split.
    + intros fmin Hmin. rewrite Hmin.
      apply in_or_app. left. apply in_or_app. right. now left.
    + intros Hmin x y Hin. rewrite Hmin in Hin.
      apply in_app_or in Hin. destruct Hin as [Hin | Hin].
      * apply in_app_or in Hin. destruct Hin as [Hin | []].
        destruct (buscar_col (table fb) "Total Spectrum Power") as [c|];
          [destruct (buscar_col (table fd) "Total Spectrum Power") as [c'|];
           [destruct (Pd.column (table fb) c) |] |];
          simpl in Hin; try contradiction.
        destruct Hin as [H | []]. discriminate.
      * simpl in Hin. destruct Hin as [H | [H | []]]; discriminate.
Qed.

Lemma stats_report_witness :
  Loaded Sample.fs
         (mkArgs "baseline.csv" "data.csv" (F64.of_Z 3)
                 (Some (F64.of_Z 2400)) None 1 true)
         (mkFile true Sample.base) (mkFile false Sample.data)
         "Power Flux Density (dBm/m2)" "power flux density" /\
  In (StatBand (F64.of_Z 2400) None)
     (stdout (snd (run Sample.fs
                       (mkArgs "baseline.csv" "data.csv" (F64.of_Z 3)
                               (Some (F64.of_Z 2400)) None 1 true)))) /\
  global Sample.fs
         (mkArgs "baseline.csv" "data.csv" (F64.of_Z 3)
                 (Some (F64.of_Z 2400)) None 1 true)
         "band_mask"
  = Some (VMask [true; true; true; true]).
Proof.
  assert (HL : Loaded Sample.fs
                 (mkArgs "baseline.csv" "data.csv" (F64.of_Z 3)
                         (Some (F64.of_Z 2400)) None 1 true)
                 (mkFile true Sample.base) (mkFile false Sample.data)
                 "Power Flux Density (dBm/m2)" "power flux density")
    by (repeat split; reflexivity).
  split; [exact HL |]. split; [| vm_compute; reflexivity].
  destruct (stats_report HL eq_refl)
    as [mu [sigma [thr [v [lines [_ [_ [Hout [Hband _]]]]]]]]].
  rewrite Hout. right. right. apply in_or_app. left.
  exact (Hband _ eq_refl).
Defined.
